(** * walls.c: distance estimation and wall/error analysis

    A shallow embedding of [src/walls.c].  The C [float] and [double] types
    are modelled by IEEE-754 binary32 and binary64 values with
    round-to-nearest-even, built on the executable specification of
    floating-point arithmetic of the standard library ([SpecFloat]).  The two
    file-scope arrays [distance] and [calibration_factor] form the state,
    which every function receives and returns explicitly. *)

From Stdlib Require Import ZArith Lia Bool QArith.
From Stdlib Require Import Floats.SpecFloat.
From stdpp Require Import base list.

Local Open Scope Z_scope.

(** ** C arithmetic types *)

(** [float] is binary32, [double] is binary64; both are carried by
    [spec_float], the operations fix the format. *)
Abbreviation float := spec_float (only parsing).
Abbreviation double := spec_float (only parsing).

(** [uint16_t] values and the wrap-around of a store into one. *)
Abbreviation uint16 := Z (only parsing).
Definition to_uint16 (z : Z) : uint16 := z mod 65536.

#[global] Instance spec_float_inhabited : Inhabited spec_float :=
  populate S754_nan.

#[global] Instance spec_float_eq_dec : EqDecision spec_float.
Proof. solve_decision. Defined.

(** Conversion between formats: the value is kept and rounded to the target
    format (C 6.3.1.5); infinities, zeros and NaN pass through. *)
Definition convert (prec emax : Z) (x : spec_float) : spec_float :=
  match x with
  | S754_finite s m e => binary_round prec emax s m e
  | _ => x
  end.

Module F32.
Definition prec : Z := 24.
Definition emax : Z := 128.
Definition add : float -> float -> float := SFadd prec emax.
Definition sub : float -> float -> float := SFsub prec emax.
Definition div : float -> float -> float := SFdiv prec emax.
Definition opp : float -> float := SFopp.
Definition valid : float -> bool := valid_binary prec emax.
(** [(float) x] for a [double] x. *)
Definition of_double : double -> float := convert prec emax.
(** [(float) n] for an [int] n. *)
Definition of_int (n : Z) : float := binary_normalize prec emax n 0 false.
End F32.

Module F64.
Definition prec : Z := 53.
Definition emax : Z := 1024.
Definition add : double -> double -> double := SFadd prec emax.
Definition sub : double -> double -> double := SFsub prec emax.
Definition mul : double -> double -> double := SFmul prec emax.
Definition div : double -> double -> double := SFdiv prec emax.
Definition ltb : double -> double -> bool := SFltb.
Definition leb : double -> double -> bool := SFleb.
Definition eqb : double -> double -> bool := SFeqb.
Definition valid : double -> bool := valid_binary prec emax.
(** The usual arithmetic conversion of a [float] operand to [double]. *)
Definition of_float : float -> double := convert prec emax.
Definition of_int (n : Z) : double := binary_normalize prec emax n 0 false.
(** The decimal constant [n / 10^k] as the compiler reads it: the nearest
    [double].  Both [n] and [10^k] are below [2^53] wherever it is used, so
    the correctly rounded quotient is the correctly rounded constant. *)
Definition dec (n : Z) (k : Z) : double := div (of_int n) (of_int (10 ^ k)).
Definition zero : double := S754_zero false.
End F64.

(** The decimal constant [n / 10^k] stored into a [float]. *)
Definition float_dec (n k : Z) : float := F32.of_double (F64.dec n k).

(** The exact rational value of a finite float, for stating how far a result
    is from a decimal number. *)
Definition SF2Q (x : spec_float) : option Q :=
  match x with
  | S754_zero _ => Some (0 # 1)%Q
  | S754_finite s m e =>
      let z := cond_Zopp s (Z.pos m) in
      Some (match e with
            | Z.neg p => (z # Pos.pow 2 p)%Q
            | _ => ((z * 2 ^ e) # 1)%Q
            end)
  | _ => None
  end.

(** ** Constants of walls.c *)

(** Calibration constants for sensors (decimal constants of type [double]). *)
Definition SENSOR_SIDE_LEFT_A : double := F64.dec 2806 3.
Definition SENSOR_SIDE_LEFT_B : double := F64.dec 287 3.
Definition SENSOR_SIDE_RIGHT_A : double := F64.dec 2327 3.
Definition SENSOR_SIDE_RIGHT_B : double := F64.dec 231 3.

Definition SENSOR_FRONT_LEFT_A : double := F64.dec 1500462 3.
Definition SENSOR_FRONT_LEFT_B : double := F64.dec 138777 3.
Definition SENSOR_FRONT_RIGHT_A : double := F64.dec 1378603 3.
Definition SENSOR_FRONT_RIGHT_B : double := F64.dec 124503 3.

(** Modelled from the spec: the sensor enumeration of sensor.h, which is not
    part of the sources.  Four sensors in the fixed order front-left,
    front-right, side-left, side-right, used as array indices; it is the order
    in which walls.c lays out its calibration tables. *)
Definition SENSOR_FRONT_LEFT : nat := 0.
Definition SENSOR_FRONT_RIGHT : nat := 1.
Definition SENSOR_SIDE_LEFT : nat := 2.
Definition SENSOR_SIDE_RIGHT : nat := 3.
Definition SENSORS_WALL_MAX : nat := 4.

(** [const float] tables: each constant is rounded to binary32 when the
    table is initialised. *)
Definition sensors_calibration_a : list float :=
  F32.of_double <$>
    [SENSOR_FRONT_LEFT_A; SENSOR_FRONT_RIGHT_A;
     SENSOR_SIDE_LEFT_A; SENSOR_SIDE_RIGHT_A].
Definition sensors_calibration_b : list float :=
  F32.of_double <$>
    [SENSOR_FRONT_LEFT_B; SENSOR_FRONT_RIGHT_B;
     SENSOR_SIDE_LEFT_B; SENSOR_SIDE_RIGHT_B].

Definition SIDE_CALIBRATION_READINGS : Z := 20.
Definition DIAGONAL_MIN_DISTANCE : double := F64.dec 24 2.

(** ** State *)

(** The two [static volatile float] arrays of walls.c. *)
Record walls_state : Type := mk_walls_state {
  distance : list float;
  calibration_factor : list float
}.

(** Objects of static storage duration start out as positive zero. *)
Definition initial_state : walls_state :=
  {| distance := replicate SENSORS_WALL_MAX (S754_zero false);
     calibration_factor := replicate SENSORS_WALL_MAX (S754_zero false) |}.

(** [distance[i] = v] and [calibration_factor[i] = v]. *)
Definition set_distance (st : walls_state) (i : nat) (v : float) : walls_state :=
  {| distance := <[i := v]> (distance st);
     calibration_factor := calibration_factor st |}.
Definition set_calibration_factor (st : walls_state) (i : nat) (v : float)
  : walls_state :=
  {| distance := distance st;
     calibration_factor := <[i := v]> (calibration_factor st) |}.

(** Both arrays have [SENSORS_WALL_MAX] entries. *)
Definition wf_state (st : walls_state) : Prop :=
  length (distance st) = SENSORS_WALL_MAX /\
  length (calibration_factor st) = SENSORS_WALL_MAX.

(** [for (i = start; i < start + n; i++) body]. *)
Fixpoint for_loop {S : Type} (n : nat) (i : nat) (body : nat -> S -> S) (s : S)
  : S :=
  match n with
  | O => s
  | Datatypes.S n' => for_loop n' (Datatypes.S i) body (body i s)
  end.

(** [struct walls_around] of walls.h. *)
Record walls_around : Type := mk_walls_around {
  wall_left : bool;
  wall_front : bool;
  wall_right : bool
}.

Section Walls.

(** Configuration macros of the headers, taken as parameters.  They are
    used as operands of [double] arithmetic, so each stands for the macro's
    value after the usual arithmetic conversions. *)
Variable CELL_DIMENSION : double.
Variable MIDDLE_MAZE_DISTANCE : double.
Variable SENSORS_PERIOD_us : Z.

(** The logarithmic transform of the acquisition layer, returning [float]. *)
Variable sensor_raw_log : uint16 -> uint16 -> float.

(** Distance thresholds *)
Definition SIDE_WALL_DETECTION : double :=
  F64.mul CELL_DIMENSION (F64.dec 90 2).
Definition FRONT_WALL_DETECTION : double :=
  F64.mul CELL_DIMENSION (F64.dec 15 1).

(** Modelled from the spec: [time_wait_ms] of the time-keeping layer, a
    blocking delay primitive.  It leaves the state of this module as it
    is. *)
Definition time_wait_ms (ms : Z) (st : walls_state) : walls_state := st.

(** *** Distance estimator *)

(** One iteration of the loop of [update_distance_readings].  The samples
    of the acquisition layer are the arguments [sensor_adc_get_value_on]
    and [sensor_adc_get_value_off]; [on] and [off] are the elements of the
    local [uint16_t] arrays written in this iteration. *)
Definition update_distance_body
    (sensor_adc_get_value_on sensor_adc_get_value_off : nat -> Z)
    (i : nat) (st : walls_state) : walls_state :=
  let on := to_uint16 (sensor_adc_get_value_on i) in
  let off := to_uint16 (sensor_adc_get_value_off i) in
  let st :=
    set_distance st i
      (F32.sub
         (F32.div (sensors_calibration_a !!! i) (sensor_raw_log on off))
         (sensors_calibration_b !!! i)) in
  if (i =? SENSOR_SIDE_LEFT)%nat || (i =? SENSOR_SIDE_RIGHT)%nat
  then set_distance st i
         (F32.sub (distance st !!! i) (calibration_factor st !!! i))
  else st.

Definition update_distance_readings
    (sensor_adc_get_value_on sensor_adc_get_value_off : nat -> Z)
    (st : walls_state) : walls_state :=
  for_loop SENSORS_WALL_MAX 0
    (update_distance_body sensor_adc_get_value_on sensor_adc_get_value_off)
    st.

Definition get_front_left_distance (st : walls_state) : float :=
  distance st !!! SENSOR_FRONT_LEFT.
Definition get_front_right_distance (st : walls_state) : float :=
  distance st !!! SENSOR_FRONT_RIGHT.
Definition get_side_left_distance (st : walls_state) : float :=
  distance st !!! SENSOR_SIDE_LEFT.
Definition get_side_right_distance (st : walls_state) : float :=
  distance st !!! SENSOR_SIDE_RIGHT.

(** *** Wall detection *)

Definition left_wall_detection (st : walls_state) : bool :=
  if F64.ltb (F64.of_float (distance st !!! SENSOR_SIDE_LEFT))
       SIDE_WALL_DETECTION
  then true else false.

Definition right_wall_detection (st : walls_state) : bool :=
  if F64.ltb (F64.of_float (distance st !!! SENSOR_SIDE_RIGHT))
       SIDE_WALL_DETECTION
  then true else false.

Definition front_wall_detection (st : walls_state) : bool :=
  if F64.ltb (F64.of_float (distance st !!! SENSOR_FRONT_LEFT))
       FRONT_WALL_DETECTION
     && F64.ltb (F64.of_float (distance st !!! SENSOR_FRONT_RIGHT))
          FRONT_WALL_DETECTION
  then true else false.

Definition read_walls (st : walls_state) : walls_around :=
  {| wall_left := left_wall_detection st;
     wall_front := front_wall_detection st;
     wall_right := right_wall_detection st |}.

(** *** Error signals *)

(** [x - c] for a [float] x and a [double] c, stored into a [float]: the
    initialisation of the locals [left_error] and [right_error]. *)
Definition float_minus (x : float) (c : double) : float :=
  F32.of_double (F64.sub (F64.of_float x) c).

(** [e > c] and [e < c] for a [float] e and a [double] constant c. *)
Definition gt_const (e : float) (c : double) : bool :=
  F64.ltb c (F64.of_float e).
Definition lt_const (e : float) (c : double) : bool :=
  F64.ltb (F64.of_float e) c.

Definition get_side_sensors_close_error (st : walls_state) : float :=
  let left_error :=
    float_minus (distance st !!! SENSOR_SIDE_LEFT) MIDDLE_MAZE_DISTANCE in
  let right_error :=
    float_minus (distance st !!! SENSOR_SIDE_RIGHT) MIDDLE_MAZE_DISTANCE in
  if gt_const left_error F64.zero && lt_const right_error F64.zero
  then right_error
  else if gt_const right_error F64.zero && lt_const left_error F64.zero
  then F32.opp left_error
  else F32.of_double F64.zero.

Definition get_side_sensors_far_error (st : walls_state) : float :=
  let left_error :=
    float_minus (distance st !!! SENSOR_SIDE_LEFT) MIDDLE_MAZE_DISTANCE in
  let right_error :=
    float_minus (distance st !!! SENSOR_SIDE_RIGHT) MIDDLE_MAZE_DISTANCE in
  if gt_const left_error (F64.dec 1 1) && lt_const right_error (F64.dec 4 2)
  then right_error
  else if gt_const right_error (F64.dec 1 1)
          && lt_const left_error (F64.dec 4 2)
  then F32.opp left_error
  else F32.of_double F64.zero.

Definition get_front_sensors_error (st : walls_state) : float :=
  if negb (front_wall_detection st)
  then F32.of_double F64.zero
  else F32.sub (distance st !!! SENSOR_FRONT_LEFT)
               (distance st !!! SENSOR_FRONT_RIGHT).

Definition get_diagonal_sensors_error (st : walls_state) : float :=
  let left_error :=
    float_minus (distance st !!! SENSOR_FRONT_LEFT) DIAGONAL_MIN_DISTANCE in
  let right_error :=
    float_minus (distance st !!! SENSOR_FRONT_RIGHT) DIAGONAL_MIN_DISTANCE in
  if lt_const right_error F64.zero then right_error
  else if lt_const left_error F64.zero then F32.opp left_error
  else F32.of_double F64.zero.

Definition get_front_wall_distance (st : walls_state) : float :=
  F32.of_double
    (F64.div
       (F64.of_float
          (F32.add (distance st !!! SENSOR_FRONT_LEFT)
                   (distance st !!! SENSOR_FRONT_RIGHT)))
       (F64.dec 2 0)).

(** *** Calibration of the side sensors *)

(** The locals [left_temp] and [right_temp] together with the state. *)
Definition calibration_body (i : nat)
    (acc : float * float * walls_state) : float * float * walls_state :=
  let '(left_temp, right_temp, st) := acc in
  let left_temp := F32.add left_temp (distance st !!! SENSOR_SIDE_LEFT) in
  let right_temp := F32.add right_temp (distance st !!! SENSOR_SIDE_RIGHT) in
  (left_temp, right_temp, time_wait_ms SENSORS_PERIOD_us st).

(** [calibration_factor[i] += temp / SIDE_CALIBRATION_READINGS -
    MIDDLE_MAZE_DISTANCE]: the quotient is a [float], the difference and
    the sum are [double], the store rounds to [float]. *)
Definition add_calibration (st : walls_state) (i : nat) (temp : float)
  : walls_state :=
  set_calibration_factor st i
    (F32.of_double
       (F64.add
          (F64.of_float (calibration_factor st !!! i))
          (F64.sub
             (F64.of_float
                (F32.div temp (F32.of_int SIDE_CALIBRATION_READINGS)))
             MIDDLE_MAZE_DISTANCE))).

Definition side_sensors_calibration (st : walls_state) : walls_state :=
  let right_temp := F32.of_int 0 in
  let left_temp := F32.of_int 0 in
  let '(left_temp, right_temp, st) :=
    for_loop (Z.to_nat SIDE_CALIBRATION_READINGS) 0 calibration_body
      (left_temp, right_temp, st) in
  let st := add_calibration st SENSOR_SIDE_LEFT left_temp in
  add_calibration st SENSOR_SIDE_RIGHT right_temp.

End Walls.

(** ** Operations on the module and reachable states *)

(** The read-only entry points of walls.c. *)
Inductive observer : Type :=
  | Get_front_left_distance | Get_front_right_distance
  | Get_side_left_distance | Get_side_right_distance
  | Get_side_sensors_close_error | Get_side_sensors_far_error
  | Get_front_sensors_error | Get_diagonal_sensors_error
  | Get_front_wall_distance
  | Left_wall_detection | Right_wall_detection | Front_wall_detection
  | Read_walls.

Inductive observation : Type :=
  | Obs_float (x : float)
  | Obs_bool (b : bool)
  | Obs_walls (w : walls_around).

(** A call into the module: an update with the samples the acquisition layer
    delivers during it, a calibration, or a read-only call. *)
Inductive operation : Type :=
  | Op_update (sensor_adc_get_value_on sensor_adc_get_value_off : nat -> Z)
  | Op_calibrate
  | Op_observe (o : observer).

Section Run.

Variable CELL_DIMENSION : double.
Variable MIDDLE_MAZE_DISTANCE : double.
Variable SENSORS_PERIOD_us : Z.
Variable sensor_raw_log : uint16 -> uint16 -> float.

Definition observe (o : observer) (st : walls_state) : observation :=
  match o with
  | Get_front_left_distance => Obs_float (get_front_left_distance st)
  | Get_front_right_distance => Obs_float (get_front_right_distance st)
  | Get_side_left_distance => Obs_float (get_side_left_distance st)
  | Get_side_right_distance => Obs_float (get_side_right_distance st)
  | Get_side_sensors_close_error =>
      Obs_float (get_side_sensors_close_error MIDDLE_MAZE_DISTANCE st)
  | Get_side_sensors_far_error =>
      Obs_float (get_side_sensors_far_error MIDDLE_MAZE_DISTANCE st)
  | Get_front_sensors_error =>
      Obs_float (get_front_sensors_error CELL_DIMENSION st)
  | Get_diagonal_sensors_error => Obs_float (get_diagonal_sensors_error st)
  | Get_front_wall_distance => Obs_float (get_front_wall_distance st)
  | Left_wall_detection => Obs_bool (left_wall_detection CELL_DIMENSION st)
  | Right_wall_detection => Obs_bool (right_wall_detection CELL_DIMENSION st)
  | Front_wall_detection => Obs_bool (front_wall_detection CELL_DIMENSION st)
  | Read_walls => Obs_walls (read_walls CELL_DIMENSION st)
  end.

(** The state after a call and what the call returns, if anything. *)
Definition step (o : operation) (st : walls_state)
  : walls_state * option observation :=
  match o with
  | Op_update on off =>
      (update_distance_readings sensor_raw_log on off st, None)
  | Op_calibrate =>
      (side_sensors_calibration MIDDLE_MAZE_DISTANCE SENSORS_PERIOD_us st,
       None)
  | Op_observe o => (st, Some (observe o st))
  end.

Fixpoint run (ops : list operation) (st : walls_state) : walls_state :=
  match ops with
  | [] => st
  | o :: ops => run ops (fst (step o st))
  end.

End Run.

Example float_0_1 : F32.of_double (F64.dec 1 1) = S754_finite false 13421773 (-27).
Proof. vm_compute. reflexivity. Qed.
Example double_0_1 : F64.dec 1 1 = S754_finite false 7205759403792794 (-56).
Proof. vm_compute. reflexivity. Qed.

(** ** Order lemmas for the comparison of floats

    [SFcompare] orders finite values of one sign by exponent and then by
    mantissa; as a relation on triples this is a strict order whatever the
    mantissas are, which is all the branch analysis below needs. *)

Lemma SFcompare_antisym (x y : spec_float) (c : comparison) :
  SFcompare x y = Some c -> SFcompare y x = Some (CompOpp c).
Proof.
  destruct x as [sx|sx| |sx mx ex], y as [sy|sy| |sy my ey]; simpl;
    try discriminate;
    try (destruct sx; intros [= <-]; reflexivity);
    try (destruct sy; intros [= <-]; reflexivity);
    try (intros [= <-]; reflexivity).
  - destruct sx, sy; intros [= <-]; reflexivity.
  - change (Pos.compare_cont Eq mx my) with (Pos.compare mx my).
    change (Pos.compare_cont Eq my mx) with (Pos.compare my mx).
    rewrite (Z.compare_antisym ex ey), (Pos.compare_antisym mx my).
    destruct sx, sy; intros [= <-]; try reflexivity;
      destruct (ex ?= ey); simpl; try reflexivity;
      destruct (mx ?= my)%positive; reflexivity.
Qed.

Lemma SFltb_asym (x y : spec_float) : SFltb x y = true -> SFltb y x = false.
Proof.
  unfold SFltb. destruct (SFcompare x y) as [[]|] eqn:E; try discriminate.
  intros _. rewrite (SFcompare_antisym _ _ _ E). reflexivity.
Qed.

Lemma SFeqb_not_ltb (x y : spec_float) :
  SFeqb x y = true -> SFltb x y = false /\ SFltb y x = false.
Proof.
  unfold SFeqb, SFltb. destruct (SFcompare x y) as [[]|] eqn:E; try discriminate.
  intros _. rewrite (SFcompare_antisym _ _ _ E). split; reflexivity.
Qed.

Lemma SFleb_not_ltb (x y : spec_float) : SFleb y x = true -> SFltb x y = false.
Proof.
  unfold SFleb, SFltb. destruct (SFcompare y x) as [[]|] eqn:E; try discriminate;
    intros _; rewrite (SFcompare_antisym _ _ _ E); reflexivity.
Qed.

Lemma SFltb_trans (x y z : spec_float) :
  SFltb x y = true -> SFltb y z = true -> SFltb x z = true.
Proof.
  unfold SFltb.
  destruct x as [sx|sx| |sx mx ex], y as [sy|sy| |sy my ey],
    z as [sz|sz| |sz mz ez]; simpl;
    try discriminate;
    try (destruct sx; try discriminate); try (destruct sy; try discriminate);
    try (destruct sz; try discriminate); try reflexivity.
  - change (Pos.compare_cont Eq my mx) with (Pos.compare my mx).
    change (Pos.compare_cont Eq mz my) with (Pos.compare mz my).
    change (Pos.compare_cont Eq mz mx) with (Pos.compare mz mx).
    change (Pos.compare_cont Eq mx my) with (Pos.compare mx my).
    change (Pos.compare_cont Eq my mz) with (Pos.compare my mz).
    change (Pos.compare_cont Eq mx mz) with (Pos.compare mx mz).
    destruct (Z.compare_spec ex ey), (Z.compare_spec ey ez),
      (Z.compare_spec ex ez); simpl; try discriminate; try reflexivity;
      try lia; subst;
      destruct (Pos.compare_spec mx my), (Pos.compare_spec my mz),
        (Pos.compare_spec mx mz); simpl; try discriminate; try reflexivity;
      lia.
  - change (Pos.compare_cont Eq mx my) with (Pos.compare mx my).
    change (Pos.compare_cont Eq my mz) with (Pos.compare my mz).
    change (Pos.compare_cont Eq mx mz) with (Pos.compare mx mz).
    destruct (Z.compare_spec ex ey), (Z.compare_spec ey ez),
      (Z.compare_spec ex ez); simpl; try discriminate; try reflexivity;
      try lia; subst;
      destruct (Pos.compare_spec mx my), (Pos.compare_spec my mz),
        (Pos.compare_spec mx mz); simpl; try discriminate; try reflexivity;
      lia.
Qed.

(** ** Wall detection and error signals *)

Section Analyzer.

Variable CELL_DIMENSION : double.
Variable MIDDLE_MAZE_DISTANCE : double.

(** C7: [left_wall_detection] is true exactly when the side-left distance
    is strictly below [0.90 * CELL_DIMENSION], and [right_wall_detection]
    exactly when the side-right distance is; a distance equal to the
    threshold gives false. *)
Theorem side_wall_detection_strict (st : walls_state) :
  let threshold := F64.mul CELL_DIMENSION (F64.dec 90 2) in
  let sl := F64.of_float (get_side_left_distance st) in
  let sr := F64.of_float (get_side_right_distance st) in
  (left_wall_detection CELL_DIMENSION st = true <->
     F64.ltb sl threshold = true) /\
  (right_wall_detection CELL_DIMENSION st = true <->
     F64.ltb sr threshold = true) /\
  (F64.eqb sl threshold = true ->
     left_wall_detection CELL_DIMENSION st = false) /\
  (F64.eqb sr threshold = true ->
     right_wall_detection CELL_DIMENSION st = false).
Proof.
  intros threshold sl sr.
  unfold left_wall_detection, right_wall_detection, SIDE_WALL_DETECTION.
  fold threshold.
  change (F64.of_float (distance st !!! SENSOR_SIDE_LEFT)) with sl.
  change (F64.of_float (distance st !!! SENSOR_SIDE_RIGHT)) with sr.
  repeat split.
  - destruct (F64.ltb sl threshold); auto.
  - intros ->. reflexivity.
  - destruct (F64.ltb sr threshold); auto.
  - intros ->. reflexivity.
  - intros H. apply SFeqb_not_ltb in H as [H _].
    unfold F64.ltb. rewrite H. reflexivity.
  - intros H. apply SFeqb_not_ltb in H as [H _].
    unfold F64.ltb. rewrite H. reflexivity.
Qed.

(** [front_wall_detection] is the conjunction of the two strict tests. *)
Lemma front_wall_detection_spec (st : walls_state) :
  front_wall_detection CELL_DIMENSION st =
    F64.ltb (F64.of_float (get_front_left_distance st))
      (F64.mul CELL_DIMENSION (F64.dec 15 1))
    && F64.ltb (F64.of_float (get_front_right_distance st))
         (F64.mul CELL_DIMENSION (F64.dec 15 1)).
Proof.
  unfold front_wall_detection, FRONT_WALL_DETECTION,
    get_front_left_distance, get_front_right_distance.
  match goal with |- (if ?b then _ else _) = _ => destruct b end; reflexivity.
Qed.

(** C8: [get_front_sensors_error] is zero whenever [front_wall_detection]
    is false, in particular whenever one of the front distances is at or
    above [1.5 * CELL_DIMENSION]; when the detection is true it is the
    front-left distance minus the front-right distance. *)
Theorem front_sensors_error_gated (st : walls_state) :
  let threshold := F64.mul CELL_DIMENSION (F64.dec 15 1) in
  let fl := get_front_left_distance st in
  let fr := get_front_right_distance st in
  (front_wall_detection CELL_DIMENSION st = false ->
     get_front_sensors_error CELL_DIMENSION st = S754_zero false) /\
  (F64.leb threshold (F64.of_float fl) = true \/
   F64.leb threshold (F64.of_float fr) = true ->
     front_wall_detection CELL_DIMENSION st = false) /\
  (front_wall_detection CELL_DIMENSION st = true ->
     get_front_sensors_error CELL_DIMENSION st = F32.sub fl fr).
Proof.
  intros threshold fl fr. repeat split.
  - intros H. unfold get_front_sensors_error. rewrite H. reflexivity.
  - rewrite front_wall_detection_spec. fold threshold fl fr.
    intros [H | H]; apply SFleb_not_ltb in H; unfold F64.ltb; rewrite H.
    + reflexivity.
    + apply andb_false_r.
  - intros H. unfold get_front_sensors_error. rewrite H. reflexivity.
Qed.

(** C3: with [left_error] and [right_error] the side distances minus
    [MIDDLE_MAZE_DISTANCE], [get_side_sensors_close_error] returns
    [right_error] when [left_error > 0] and [right_error < 0], returns
    [-left_error] when [right_error > 0] and [left_error < 0], and returns
    zero when both errors have the same sign or one of them is zero. *)
Theorem side_close_error_cases (st : walls_state) :
  let left_error :=
    float_minus (get_side_left_distance st) MIDDLE_MAZE_DISTANCE in
  let right_error :=
    float_minus (get_side_right_distance st) MIDDLE_MAZE_DISTANCE in
  let result := get_side_sensors_close_error MIDDLE_MAZE_DISTANCE st in
  (gt_const left_error F64.zero = true ->
   lt_const right_error F64.zero = true -> result = right_error) /\
  (gt_const right_error F64.zero = true ->
   lt_const left_error F64.zero = true -> result = F32.opp left_error) /\
  ((gt_const left_error F64.zero = true /\
    gt_const right_error F64.zero = true) \/
   (lt_const left_error F64.zero = true /\
    lt_const right_error F64.zero = true) \/
   F64.eqb (F64.of_float left_error) F64.zero = true \/
   F64.eqb (F64.of_float right_error) F64.zero = true ->
   result = S754_zero false).
Proof.
  intros l r result. subst result.
  unfold get_side_sensors_close_error, get_side_left_distance,
    get_side_right_distance in *.
  fold l r. unfold gt_const, lt_const, F64.ltb, F64.eqb.
  set (l' := F64.of_float l). set (r' := F64.of_float r).
  repeat split.
  - intros -> ->. reflexivity.
  - intros Hr Hl. rewrite Hr, Hl, (SFltb_asym _ _ Hl). reflexivity.
  - intros [[Hl Hr] | [[Hl Hr] | [H | H]]].
    + rewrite Hl, Hr, (SFltb_asym _ _ Hl), (SFltb_asym _ _ Hr). reflexivity.
    + rewrite Hl, Hr, (SFltb_asym _ _ Hl), (SFltb_asym _ _ Hr). reflexivity.
    + apply SFeqb_not_ltb in H as [H1 H2]. rewrite H1, H2.
      rewrite andb_false_r. reflexivity.
    + apply SFeqb_not_ltb in H as [H1 H2]. rewrite H1, H2.
      rewrite andb_false_r. reflexivity.
Qed.

(** The two triggers of the far error exclude each other: an error below
    0.04 is not above 0.1. *)
Lemma far_thresholds_exclusive (e : float) :
  lt_const e (F64.dec 4 2) = true -> gt_const e (F64.dec 1 1) = false.
Proof.
  unfold lt_const, gt_const, F64.ltb. intros H.
  destruct (SFltb (F64.dec 1 1) (F64.of_float e)) eqn:G; [|reflexivity].
  pose proof (SFltb_trans _ _ _ G H) as T.
  vm_compute in T. discriminate.
Qed.

(** C4: [get_side_sensors_far_error] returns [right_error] when
    [left_error > 0.1] and [right_error < 0.04], returns [-left_error] when
    [right_error > 0.1] and [left_error < 0.04], and zero in every other
    case. *)
Theorem side_far_error_cases (st : walls_state) :
  let left_error :=
    float_minus (get_side_left_distance st) MIDDLE_MAZE_DISTANCE in
  let right_error :=
    float_minus (get_side_right_distance st) MIDDLE_MAZE_DISTANCE in
  let result := get_side_sensors_far_error MIDDLE_MAZE_DISTANCE st in
  let left_far :=
    gt_const left_error (F64.dec 1 1) && lt_const right_error (F64.dec 4 2) in
  let right_far :=
    gt_const right_error (F64.dec 1 1) && lt_const left_error (F64.dec 4 2) in
  (left_far = true -> result = right_error) /\
  (right_far = true -> result = F32.opp left_error) /\
  (left_far = false -> right_far = false -> result = S754_zero false).
Proof.
  intros l r result left_far right_far. subst result.
  unfold get_side_sensors_far_error, get_side_left_distance,
    get_side_right_distance in *.
  fold l r. fold left_far right_far.
  repeat split.
  - intros ->. reflexivity.
  - intros H. rewrite H.
    apply andb_true_iff in H as [_ H].
    apply far_thresholds_exclusive in H.
    unfold left_far. rewrite H. reflexivity.
  - intros -> ->. reflexivity.
Qed.

End Analyzer.

(** ** The distance estimator *)

Lemma to_uint16_small (z : Z) : 0 <= z < 65536 -> to_uint16 z = z.
Proof. intros H. unfold to_uint16. apply Z.mod_small. exact H. Qed.

Section Estimator.

Variable sensor_raw_log : uint16 -> uint16 -> float.
Variables sensor_adc_get_value_on sensor_adc_get_value_off : nat -> Z.

(** [a / ratio - b] in [float] arithmetic, for the samples of sensor [i]. *)
Definition curve (a b : double) (i : nat) : float :=
  F32.sub
    (F32.div (F32.of_double a)
       (sensor_raw_log (to_uint16 (sensor_adc_get_value_on i))
                       (to_uint16 (sensor_adc_get_value_off i))))
    (F32.of_double b).

Local Opaque F32.sub F32.div F32.of_double to_uint16.

(** The whole effect of one update on a state with four-entry arrays. *)
Lemma update_distance_readings_eq (st : walls_state) :
  length (distance st) = SENSORS_WALL_MAX ->
  update_distance_readings sensor_raw_log
    sensor_adc_get_value_on sensor_adc_get_value_off st =
  {| distance :=
       [curve SENSOR_FRONT_LEFT_A SENSOR_FRONT_LEFT_B SENSOR_FRONT_LEFT;
        curve SENSOR_FRONT_RIGHT_A SENSOR_FRONT_RIGHT_B SENSOR_FRONT_RIGHT;
        F32.sub (curve SENSOR_SIDE_LEFT_A SENSOR_SIDE_LEFT_B SENSOR_SIDE_LEFT)
          (calibration_factor st !!! SENSOR_SIDE_LEFT);
        F32.sub
          (curve SENSOR_SIDE_RIGHT_A SENSOR_SIDE_RIGHT_B SENSOR_SIDE_RIGHT)
          (calibration_factor st !!! SENSOR_SIDE_RIGHT)];
     calibration_factor := calibration_factor st |}.
Proof.
  destruct st as [[|d0 [|d1 [|d2 [|d3 [|d4 ds]]]]] cf]; simpl;
    try discriminate.
  intros _. reflexivity.
Qed.

End Estimator.

(** C1: after [update_distance_readings] with samples [on] and [off] in the
    16-bit range, each distance accessor returns [a / ratio - b] for its
    sensor's constants and [ratio = sensor_raw_log on off]; the accessors of
    the two side sensors return that value minus the sensor's calibration
    offset, those of the two front sensors subtract nothing. *)
Theorem update_then_get_distance
    (sensor_raw_log : uint16 -> uint16 -> float)
    (on off : nat -> Z) (st : walls_state) :
  wf_state st ->
  (forall i, (i < SENSORS_WALL_MAX)%nat ->
             0 <= on i < 65536 /\ 0 <= off i < 65536) ->
  let st' := update_distance_readings sensor_raw_log on off st in
  let ratio i := sensor_raw_log (on i) (off i) in
  let value a b i := F32.sub (F32.div (F32.of_double a) (ratio i))
                             (F32.of_double b) in
  get_front_left_distance st' =
    value SENSOR_FRONT_LEFT_A SENSOR_FRONT_LEFT_B SENSOR_FRONT_LEFT /\
  get_front_right_distance st' =
    value SENSOR_FRONT_RIGHT_A SENSOR_FRONT_RIGHT_B SENSOR_FRONT_RIGHT /\
  get_side_left_distance st' =
    F32.sub (value SENSOR_SIDE_LEFT_A SENSOR_SIDE_LEFT_B SENSOR_SIDE_LEFT)
      (calibration_factor st !!! SENSOR_SIDE_LEFT) /\
  get_side_right_distance st' =
    F32.sub (value SENSOR_SIDE_RIGHT_A SENSOR_SIDE_RIGHT_B SENSOR_SIDE_RIGHT)
      (calibration_factor st !!! SENSOR_SIDE_RIGHT) /\
  calibration_factor st' = calibration_factor st.
Proof.
  intros [Hd _] Hrange st' ratio value. subst st'.
  rewrite update_distance_readings_eq by exact Hd.
  unfold get_front_left_distance, get_front_right_distance,
    get_side_left_distance, get_side_right_distance, curve, value, ratio.
  cbn [distance calibration_factor].
  destruct (Hrange SENSOR_FRONT_LEFT ltac:(compute; lia)) as [H0 H0'].
  destruct (Hrange SENSOR_FRONT_RIGHT ltac:(compute; lia)) as [H1 H1'].
  destruct (Hrange SENSOR_SIDE_LEFT ltac:(compute; lia)) as [H2 H2'].
  destruct (Hrange SENSOR_SIDE_RIGHT ltac:(compute; lia)) as [H3 H3'].
  rewrite !to_uint16_small by assumption.
  repeat split.
Qed.

(** A stand-in for the logarithmic transform, for running the estimator
    on concrete samples: the difference of the two samples as a [float]. *)
Definition sample_raw_log (on off : Z) : float := F32.of_int (on - off).

Lemma update_then_get_distance_witness :
  let st' :=
    update_distance_readings sample_raw_log
      (fun _ => 1000) (fun _ => 100) initial_state in
  let value a b :=
    F32.sub (F32.div (F32.of_double a) (sample_raw_log 1000 100))
      (F32.of_double b) in
  get_front_left_distance st' =
    value SENSOR_FRONT_LEFT_A SENSOR_FRONT_LEFT_B /\
  get_front_right_distance st' =
    value SENSOR_FRONT_RIGHT_A SENSOR_FRONT_RIGHT_B /\
  get_side_left_distance st' =
    F32.sub (value SENSOR_SIDE_LEFT_A SENSOR_SIDE_LEFT_B)
      (calibration_factor initial_state !!! SENSOR_SIDE_LEFT) /\
  get_side_right_distance st' =
    F32.sub (value SENSOR_SIDE_RIGHT_A SENSOR_SIDE_RIGHT_B)
      (calibration_factor initial_state !!! SENSOR_SIDE_RIGHT) /\
  calibration_factor st' = calibration_factor initial_state.
Proof.
  apply (update_then_get_distance sample_raw_log
           (fun _ => 1000) (fun _ => 100) initial_state).
  - split; reflexivity.
  - intros i _. lia.
Defined.

(** ** Calibration of the side sensors *)

Section Calibration.

Variable MIDDLE_MAZE_DISTANCE : double.
Variable SENSORS_PERIOD_us : Z.

(** The sampling loop adds the two side distances to the running sums and
    hands the state on as it found it. *)
Lemma calibration_loop_eq (n i : nat) (left_temp right_temp : float)
    (st : walls_state) :
  for_loop n i (calibration_body SENSORS_PERIOD_us)
    (left_temp, right_temp, st) =
  (Nat.iter n (fun t => F32.add t (distance st !!! SENSOR_SIDE_LEFT))
     left_temp,
   Nat.iter n (fun t => F32.add t (distance st !!! SENSOR_SIDE_RIGHT))
     right_temp,
   st).
Proof.
  revert i left_temp right_temp.
  induction n as [|n IH]; intros i l r; [reflexivity|].
  cbn [for_loop]. unfold calibration_body at 2, time_wait_ms.
  rewrite IH, !Nat.iter_succ_r. reflexivity.
Qed.

(** The average of [SIDE_CALIBRATION_READINGS] samples of the value [d],
    summed up in [float] arithmetic, minus [MIDDLE_MAZE_DISTANCE]. *)
Definition sampled_bias (d : float) : double :=
  F64.sub
    (F64.of_float
       (F32.div
          (Nat.iter (Z.to_nat SIDE_CALIBRATION_READINGS)
             (fun t => F32.add t d) (F32.of_int 0))
          (F32.of_int SIDE_CALIBRATION_READINGS)))
    MIDDLE_MAZE_DISTANCE.

(** The whole effect of the routine: two stores into [calibration_factor]. *)
Lemma side_sensors_calibration_eq (st : walls_state) :
  side_sensors_calibration MIDDLE_MAZE_DISTANCE SENSORS_PERIOD_us st =
  {| distance := distance st;
     calibration_factor :=
       <[SENSOR_SIDE_RIGHT :=
           F32.of_double
             (F64.add
                (F64.of_float
                   (<[SENSOR_SIDE_LEFT :=
                        F32.of_double
                          (F64.add
                             (F64.of_float
                                (calibration_factor st !!! SENSOR_SIDE_LEFT))
                             (sampled_bias
                                (distance st !!! SENSOR_SIDE_LEFT)))]>
                      (calibration_factor st) !!! SENSOR_SIDE_RIGHT))
                (sampled_bias (distance st !!! SENSOR_SIDE_RIGHT)))]>
         (<[SENSOR_SIDE_LEFT :=
              F32.of_double
                (F64.add
                   (F64.of_float (calibration_factor st !!! SENSOR_SIDE_LEFT))
                   (sampled_bias (distance st !!! SENSOR_SIDE_LEFT)))]>
            (calibration_factor st)) |}.
Proof.
  unfold side_sensors_calibration. rewrite calibration_loop_eq.
  cbv beta iota zeta.
  unfold add_calibration, set_calibration_factor, sampled_bias.
  cbn [distance calibration_factor]. reflexivity.
Qed.

(** C9: [side_sensors_calibration] leaves the whole [distance] array and
    the calibration offsets of the two front sensors as they were at
    entry. *)
Theorem side_sensors_calibration_frame (st : walls_state) :
  let st' := side_sensors_calibration MIDDLE_MAZE_DISTANCE
               SENSORS_PERIOD_us st in
  distance st' = distance st /\
  calibration_factor st' !! SENSOR_FRONT_LEFT =
    calibration_factor st !! SENSOR_FRONT_LEFT /\
  calibration_factor st' !! SENSOR_FRONT_RIGHT =
    calibration_factor st !! SENSOR_FRONT_RIGHT /\
  length (calibration_factor st') = length (calibration_factor st).
Proof.
  intros st'. subst st'. rewrite side_sensors_calibration_eq.
  cbn [distance calibration_factor].
  repeat split.
  - rewrite !list_lookup_insert_ne by discriminate. reflexivity.
  - rewrite !list_lookup_insert_ne by discriminate. reflexivity.
  - rewrite !length_insert. reflexivity.
Qed.

End Calibration.

(** ** Reachable states *)

Section Reachable.

Variable CELL_DIMENSION : double.
Variable MIDDLE_MAZE_DISTANCE : double.
Variable SENSORS_PERIOD_us : Z.
Variable sensor_raw_log : uint16 -> uint16 -> float.

Local Abbreviation step_here :=
  (step CELL_DIMENSION MIDDLE_MAZE_DISTANCE SENSORS_PERIOD_us sensor_raw_log).
Local Abbreviation run_here :=
  (run CELL_DIMENSION MIDDLE_MAZE_DISTANCE SENSORS_PERIOD_us sensor_raw_log).

(** Four-entry arrays whose front calibration offsets are positive zero. *)
Definition front_offsets_zero (st : walls_state) : Prop :=
  wf_state st /\
  calibration_factor st !! SENSOR_FRONT_LEFT = Some (S754_zero false) /\
  calibration_factor st !! SENSOR_FRONT_RIGHT = Some (S754_zero false).

Lemma front_offsets_zero_initial : front_offsets_zero initial_state.
Proof. repeat split. Qed.

Lemma front_offsets_zero_step (o : operation) (st : walls_state) :
  front_offsets_zero st -> front_offsets_zero (fst (step_here o st)).
Proof.
  intros [[Hd Hc] [Hl Hr]].
  destruct o as [on off| |o]; cbn [step fst].
  - rewrite update_distance_readings_eq by exact Hd.
    repeat split; assumption.
  - rewrite side_sensors_calibration_eq.
    unfold front_offsets_zero, wf_state. cbn [distance calibration_factor].
    rewrite !length_insert, !list_lookup_insert_ne by discriminate.
    repeat split; assumption.
  - repeat split; assumption.
Qed.

Lemma front_offsets_zero_run (ops : list operation) (st : walls_state) :
  front_offsets_zero st -> front_offsets_zero (run_here ops st).
Proof.
  revert st. induction ops as [|o ops IH]; intros st H; [exact H|].
  cbn [run]. apply IH, front_offsets_zero_step, H.
Qed.

(** A read-only call returns a value and leaves the state alone. *)
Lemma observe_keeps_state (o : observer) (st : walls_state) :
  fst (step_here (Op_observe o) st) = st.
Proof. reflexivity. Qed.

(** C10: the calibration offsets of the two front sensors are zero in the
    initial state and after every sequence of updates, calibrations and
    read-only calls; so an update in any reachable state stores the bare
    [a / ratio - b] for the front sensors. *)
Theorem front_offsets_stay_zero (ops : list operation) :
  let st := run_here ops initial_state in
  calibration_factor initial_state !!! SENSOR_FRONT_LEFT = S754_zero false /\
  calibration_factor initial_state !!! SENSOR_FRONT_RIGHT = S754_zero false /\
  calibration_factor st !!! SENSOR_FRONT_LEFT = S754_zero false /\
  calibration_factor st !!! SENSOR_FRONT_RIGHT = S754_zero false /\
  forall on off : nat -> Z,
    let st' := update_distance_readings sensor_raw_log on off st in
    get_front_left_distance st' =
      curve sensor_raw_log on off
        SENSOR_FRONT_LEFT_A SENSOR_FRONT_LEFT_B SENSOR_FRONT_LEFT /\
    get_front_right_distance st' =
      curve sensor_raw_log on off
        SENSOR_FRONT_RIGHT_A SENSOR_FRONT_RIGHT_B SENSOR_FRONT_RIGHT /\
    calibration_factor st' !!! SENSOR_FRONT_LEFT = S754_zero false /\
    calibration_factor st' !!! SENSOR_FRONT_RIGHT = S754_zero false.
Proof.
  intros st.
  destruct (front_offsets_zero_run ops initial_state
              front_offsets_zero_initial) as [[Hd Hc] [Hl Hr]].
  fold st in Hd, Hc, Hl, Hr.
  apply list_lookup_total_correct in Hl as Hl'.
  apply list_lookup_total_correct in Hr as Hr'.
  repeat split; try assumption.
  - rewrite update_distance_readings_eq by exact Hd. reflexivity.
  - rewrite update_distance_readings_eq by exact Hd. reflexivity.
Qed.

End Reachable.

(** ** Scenarios *)

(** A state whose side distances are 0.12 and 0.10 and whose offsets are
    zero. *)
Definition close_scenario_state : walls_state :=
  {| distance := [S754_zero false; S754_zero false;
                  float_dec 12 2; float_dec 10 2];
     calibration_factor := replicate SENSORS_WALL_MAX (S754_zero false) |}.

(** C2 as stated fails: with side distances 0.12 and 0.10 and
    [MIDDLE_MAZE_DISTANCE] 0.085 the close error is zero, not 0.015. *)
Lemma close_error_scenario_not_0_015 :
  get_side_left_distance close_scenario_state = float_dec 12 2 /\
  get_side_right_distance close_scenario_state = float_dec 10 2 /\
  get_side_sensors_close_error (F64.dec 85 3) close_scenario_state
    = S754_zero false /\
  get_side_sensors_close_error (F64.dec 85 3) close_scenario_state
    <> float_dec 15 3.
Proof. repeat split. vm_compute. discriminate. Qed.

(** C2, amended: with side distances 0.12 and 0.10 and
    [MIDDLE_MAZE_DISTANCE] 0.085 both errors are positive (about 0.035 and
    0.015), no branch of [get_side_sensors_close_error] fires and it returns
    zero. *)
Theorem close_error_scenario (st : walls_state) :
  get_side_left_distance st = float_dec 12 2 ->
  get_side_right_distance st = float_dec 10 2 ->
  let left_error := float_minus (get_side_left_distance st) (F64.dec 85 3) in
  let right_error := float_minus (get_side_right_distance st) (F64.dec 85 3) in
  gt_const left_error F64.zero = true /\
  gt_const right_error F64.zero = true /\
  lt_const right_error F64.zero = false /\
  get_side_sensors_close_error (F64.dec 85 3) st = S754_zero false.
Proof.
  unfold get_side_sensors_close_error, get_side_left_distance,
    get_side_right_distance.
  intros -> ->. vm_compute. repeat split.
Qed.

Lemma close_error_scenario_witness :
  let st := close_scenario_state in
  let left_error := float_minus (get_side_left_distance st) (F64.dec 85 3) in
  let right_error := float_minus (get_side_right_distance st) (F64.dec 85 3) in
  gt_const left_error F64.zero = true /\
  gt_const right_error F64.zero = true /\
  lt_const right_error F64.zero = false /\
  get_side_sensors_close_error (F64.dec 85 3) st = S754_zero false.
Proof.
  apply (close_error_scenario close_scenario_state); reflexivity.
Defined.

(** A state whose side-left distance is 0.09 and whose offsets are zero. *)
Definition calibration_scenario_state : walls_state :=
  {| distance := [S754_zero false; S754_zero false;
                  float_dec 9 2; float_dec 9 2];
     calibration_factor := replicate SENSORS_WALL_MAX (S754_zero false) |}.

(** C6 as stated fails: with the side-left distance at 0.09 and
    [MIDDLE_MAZE_DISTANCE] 0.085, a calibration from a zero offset leaves an
    offset whose value is not 0.005; it is not the [float] nearest to 0.005
    either. *)
Lemma calibration_scenario_not_0_005 :
  let st := calibration_scenario_state in
  let st' := side_sensors_calibration (F64.dec 85 3) 1000 st in
  get_side_left_distance st = float_dec 9 2 /\
  calibration_factor st !!! SENSOR_SIDE_LEFT = S754_zero false /\
  calibration_factor st' !!! SENSOR_SIDE_LEFT
    = S754_finite false 10737458 (-31) /\
  float_dec 5 3 = S754_finite false 10737418 (-31) /\
  SF2Q (calibration_factor st' !!! SENSOR_SIDE_LEFT)
    = Some (10737458 # 2147483648)%Q /\
  ~ (10737458 # 2147483648 == 5 # 1000)%Q.
Proof.
  vm_compute. repeat split. discriminate.
Qed.

(** C6, amended: with the side-left distance at 0.09 and
    [MIDDLE_MAZE_DISTANCE] 0.085, one call adds the rounded sample average
    minus 0.085 to the side-left offset in [double] arithmetic and rounds the
    sum to [float]; the amount added lies between 0.005 and 0.00500002.  The
    old offset is an operand of the sum, so the routine accumulates: from a
    zero offset a first call gives about 0.00500002 and a second call about
    twice that. *)
Theorem calibration_scenario (SENSORS_PERIOD_us : Z) (st : walls_state) :
  length (calibration_factor st) = SENSORS_WALL_MAX ->
  get_side_left_distance st = float_dec 9 2 ->
  let calibrate := side_sensors_calibration (F64.dec 85 3) SENSORS_PERIOD_us in
  let bias := S754_finite false 5764628826072016 (-60) in
  calibration_factor (calibrate st) !!! SENSOR_SIDE_LEFT =
    F32.of_double
      (F64.add (F64.of_float (calibration_factor st !!! SENSOR_SIDE_LEFT))
         bias) /\
  SF2Q bias = Some (5764628826072016 # 1152921504606846976)%Q /\
  (5 # 1000 < 5764628826072016 # 1152921504606846976)%Q /\
  (5764628826072016 # 1152921504606846976 < 500002 # 100000000)%Q /\
  (calibration_factor st !!! SENSOR_SIDE_LEFT = S754_zero false ->
   calibration_factor (calibrate st) !!! SENSOR_SIDE_LEFT
     = S754_finite false 10737458 (-31) /\
   calibration_factor (calibrate (calibrate st)) !!! SENSOR_SIDE_LEFT
     = S754_finite false 10737458 (-30)).
Proof.
  intros Hlen Hd calibrate bias.
  assert (Hbias : sampled_bias (F64.dec 85 3) (float_dec 9 2) = bias)
    by (vm_compute; reflexivity).
  assert (Hstep : forall s : walls_state,
    length (calibration_factor s) = SENSORS_WALL_MAX ->
    get_side_left_distance s = float_dec 9 2 ->
    calibration_factor (calibrate s) !!! SENSOR_SIDE_LEFT =
      F32.of_double
        (F64.add (F64.of_float (calibration_factor s !!! SENSOR_SIDE_LEFT))
           bias)).
  { intros s Hs Hds. unfold calibrate.
    rewrite side_sensors_calibration_eq. cbn [calibration_factor].
    unfold get_side_left_distance in Hds. rewrite Hds, Hbias.
    rewrite list_lookup_total_insert_ne by discriminate.
    rewrite list_lookup_total_insert_eq
      by (rewrite Hs; unfold SENSOR_SIDE_LEFT, SENSORS_WALL_MAX; lia).
    reflexivity. }
  split; [exact (Hstep st Hlen Hd)|].
  split; [reflexivity|].
  split; [reflexivity|].
  split; [reflexivity|].
  intros Hz.
  assert (H1 : calibration_factor (calibrate st) !!! SENSOR_SIDE_LEFT
               = S754_finite false 10737458 (-31)).
  { rewrite (Hstep st Hlen Hd), Hz. vm_compute. reflexivity. }
  split; [exact H1|].
  rewrite Hstep.
  - rewrite H1. vm_compute. reflexivity.
  - unfold calibrate. rewrite side_sensors_calibration_eq.
    cbn [calibration_factor]. rewrite !length_insert. exact Hlen.
  - unfold calibrate. rewrite side_sensors_calibration_eq. exact Hd.
Qed.

Lemma calibration_scenario_witness :
  calibration_factor
    (side_sensors_calibration (F64.dec 85 3) 1000 calibration_scenario_state)
    !!! SENSOR_SIDE_LEFT =
  F32.of_double
    (F64.add
       (F64.of_float
          (calibration_factor calibration_scenario_state !!! SENSOR_SIDE_LEFT))
       (S754_finite false 5764628826072016 (-60))).
Proof.
  apply (calibration_scenario 1000 calibration_scenario_state);
    reflexivity.
Defined.

(** ** Rounding to a format

    Facts about [binary_round], the rounding step behind every conversion
    and every sum or difference of [SpecFloat]: it keeps the sign, returns a
    canonical mantissa and exponent, never lowers the magnitude class of its
    argument, and flushes to zero only below the smallest exponent. *)

Lemma digits2_pos_bounds (p : positive) :
  2 ^ (Z.pos (digits2_pos p) - 1) <= Z.pos p < 2 ^ Z.pos (digits2_pos p).
Proof.
  induction p as [p IH|p IH|]; cbn [digits2_pos];
    rewrite ?Pos2Z.inj_succ.
  - replace (Z.succ (Z.pos (digits2_pos p)) - 1)
      with (Z.succ (Z.pos (digits2_pos p) - 1)) by lia.
    rewrite !Z.pow_succ_r by lia. lia.
  - replace (Z.succ (Z.pos (digits2_pos p)) - 1)
      with (Z.succ (Z.pos (digits2_pos p) - 1)) by lia.
    rewrite !Z.pow_succ_r by lia. lia.
  - cbn. lia.
Qed.

Lemma Zdigits2_bounds (z : Z) :
  0 < z -> 0 < Zdigits2 z /\ 2 ^ (Zdigits2 z - 1) <= z < 2 ^ Zdigits2 z.
Proof.
  destruct z as [|p|p]; try lia. intros _. cbn [Zdigits2].
  split; [lia | apply digits2_pos_bounds].
Qed.

Lemma Zdigits2_unique (z d : Z) :
  0 < z -> 2 ^ (d - 1) <= z < 2 ^ d -> Zdigits2 z = d.
Proof.
  intros Hz [Hl Hu].
  destruct (Zdigits2_bounds z Hz) as [Hd [Hl' Hu']].
  assert (0 < d).
  { destruct (Z.lt_trichotomy d 0) as [H|[H|H]]; try lia.
    - rewrite Z.pow_neg_r in Hu by lia. lia.
    - subst d. cbn in Hu. lia. }
  destruct (Z.lt_trichotomy (Zdigits2 z) d) as [H'|[H'|H']]; try lia.
  - assert (2 ^ Zdigits2 z <= 2 ^ (d - 1)) by (apply Z.pow_le_mono_r; lia).
    lia.
  - assert (2 ^ d <= 2 ^ (Zdigits2 z - 1)) by (apply Z.pow_le_mono_r; lia).
    lia.
Qed.

Lemma Zdigits2_lower (z j : Z) : 0 <= j -> 2 ^ j <= z -> j < Zdigits2 z.
Proof.
  intros Hj Hz.
  assert (H : 0 < z) by (pose proof (Z.pow_pos_nonneg 2 j); lia).
  destruct (Zdigits2_bounds z H) as [Hd [_ Hu]].
  destruct (Z.lt_ge_cases j (Zdigits2 z)) as [|Hge]; [assumption|].
  assert (2 ^ Zdigits2 z <= 2 ^ j) by (apply Z.pow_le_mono_r; lia).
  lia.
Qed.

Lemma Zdigits2_div (z n : Z) :
  0 < z -> 0 <= n < Zdigits2 z ->
  0 < z / 2 ^ n /\ Zdigits2 (z / 2 ^ n) = Zdigits2 z - n.
Proof.
  intros Hz Hn.
  destruct (Zdigits2_bounds z Hz) as [Hd [Hl Hu]].
  assert (Hp : 0 < 2 ^ n) by (apply Z.pow_pos_nonneg; lia).
  assert (Hq : 0 < 2 ^ (Zdigits2 z - n - 1)) by (apply Z.pow_pos_nonneg; lia).
  assert (L : 2 ^ (Zdigits2 z - n - 1) <= z / 2 ^ n).
  { apply Z.div_le_lower_bound; [exact Hp|].
    rewrite <- Z.pow_add_r by lia.
    replace (n + (Zdigits2 z - n - 1)) with (Zdigits2 z - 1) by lia.
    exact Hl. }
  assert (U : z / 2 ^ n < 2 ^ (Zdigits2 z - n)).
  { apply Z.div_lt_upper_bound; [exact Hp|].
    rewrite <- Z.pow_add_r by lia.
    replace (n + (Zdigits2 z - n)) with (Zdigits2 z) by lia.
    exact Hu. }
  split; [lia|].
  apply Zdigits2_unique; [lia|].
  split; [exact L | exact U].
Qed.

Lemma Zdigits2_div_small (z n : Z) :
  0 <= z -> 0 <= n -> Zdigits2 z <= n -> z / 2 ^ n = 0.
Proof.
  intros Hz Hn Hd. apply Z.div_small.
  destruct (Z.eq_dec z 0) as [->|Hne].
  - split; [lia | apply Z.pow_pos_nonneg; lia].
  - destruct (Zdigits2_bounds z ltac:(lia)) as [_ [_ Hu]].
    assert (2 ^ Zdigits2 z <= 2 ^ n) by (apply Z.pow_le_mono_r; lia).
    lia.
Qed.

Lemma Zdigits2_succ (z : Z) :
  0 < z -> Zdigits2 z <= Zdigits2 (z + 1) <= Zdigits2 z + 1.
Proof.
  intros Hz.
  destruct (Zdigits2_bounds z Hz) as [Hd [Hl Hu]].
  destruct (Zdigits2_bounds (z + 1) ltac:(lia)) as [Hd' [Hl' Hu']].
  split.
  - destruct (Z.lt_ge_cases (Zdigits2 (z + 1)) (Zdigits2 z)) as [H|]; [|lia].
    assert (2 ^ Zdigits2 (z + 1) <= 2 ^ (Zdigits2 z - 1))
      by (apply Z.pow_le_mono_r; lia).
    lia.
  - destruct (Z.lt_ge_cases (Zdigits2 z + 1) (Zdigits2 (z + 1))) as [H|]; [|lia].
    assert (H0 : 2 ^ (Zdigits2 z + 1) <= 2 ^ (Zdigits2 (z + 1) - 1))
      by (apply Z.pow_le_mono_r; lia).
    rewrite Z.pow_add_r in H0 by lia. lia.
Qed.

Lemma shr_1_m (mrs : shr_record) :
  0 <= shr_m mrs -> shr_m (shr_1 mrs) = shr_m mrs / 2.
Proof.
  destruct mrs as [m r s]. cbn [shr_m].
  destruct m as [|[p|p|]|p]; intros H; cbn [shr_1 shr_m]; try lia.
  - reflexivity.
  - rewrite Pos2Z.inj_xI. apply (Z.div_unique _ _ _ 1); lia.
  - rewrite Pos2Z.inj_xO. apply (Z.div_unique _ _ _ 0); lia.
  - reflexivity.
Qed.

Lemma iter_pos_shr_1_m (k : positive) (mrs : shr_record) :
  0 <= shr_m mrs ->
  shr_m (SpecFloat.iter_pos shr_1 k mrs) = shr_m mrs / 2 ^ Z.pos k.
Proof.
  revert mrs.
  induction k as [k IH|k IH|]; intros mrs H; cbn [SpecFloat.iter_pos].
  - assert (H1 : 0 <= shr_m (shr_1 mrs))
      by (rewrite shr_1_m by exact H; apply Z.div_pos; lia).
    assert (H2 : 0 <= shr_m (SpecFloat.iter_pos shr_1 k (shr_1 mrs)))
      by (rewrite IH by exact H1; apply Z.div_pos; [lia|];
          apply Z.pow_pos_nonneg; lia).
    rewrite IH by exact H2. rewrite IH by exact H1.
    rewrite shr_1_m by exact H.
    rewrite !Z.div_div by (try lia; apply Z.pow_pos_nonneg; lia).
    f_equal. rewrite <- !Z.pow_add_r by lia. change 2 with (2 ^ 1) at 1.
    rewrite <- Z.pow_add_r by lia. f_equal. lia.
  - assert (H2 : 0 <= shr_m (SpecFloat.iter_pos shr_1 k mrs))
      by (rewrite IH by exact H; apply Z.div_pos; [lia|];
          apply Z.pow_pos_nonneg; lia).
    rewrite IH by exact H2. rewrite IH by exact H.
    rewrite !Z.div_div by (try lia; apply Z.pow_pos_nonneg; lia).
    f_equal. rewrite <- Z.pow_add_r by lia. f_equal. lia.
  - rewrite shr_1_m by exact H. reflexivity.
Qed.

Section Rounding.

Variables prec emax : Z.
Hypothesis Hprec : 0 < prec.

Lemma shr_record_of_loc_m (m : Z) (l : location) :
  shr_m (shr_record_of_loc m l) = m.
Proof. destruct l as [|[]]; reflexivity. Qed.

Lemma shr_fexp_spec (m e : Z) (l : location) :
  0 <= m ->
  let n := fexp prec emax (Zdigits2 m + e) - e in
  (n <= 0 -> shr_fexp prec emax m e l = (shr_record_of_loc m l, e)) /\
  (0 < n ->
   shr_m (fst (shr_fexp prec emax m e l)) = m / 2 ^ n /\
   snd (shr_fexp prec emax m e l) = e + n).
Proof.
  intros Hm n. unfold shr_fexp, shr. fold n.
  destruct n as [|k|k]; split; intros Hn; try lia; try reflexivity.
  cbn [fst snd]. split; [|reflexivity].
  rewrite iter_pos_shr_1_m by (rewrite shr_record_of_loc_m; exact Hm).
  rewrite shr_record_of_loc_m. reflexivity.
Qed.

Lemma round_nearest_even_cases (m : Z) (l : location) :
  round_nearest_even m l = m \/ round_nearest_even m l = m + 1.
Proof.
  destruct l as [|[]]; cbn [round_nearest_even]; auto.
  destruct (Z.even m); auto.
Qed.

(** What rounding the positive mantissa [p] at exponent [e] can give: the
    sign is kept; a finite result is canonical and its magnitude class
    (digits plus exponent) is at least that of the input; zero appears only
    when the input lies below the smallest exponent. *)
Definition rounded (s : bool) (p : positive) (e : Z) (x : spec_float) : Prop :=
  match x with
  | S754_zero s' => s' = s /\ Z.pos (digits2_pos p) + e <= emin prec emax
  | S754_infinity s' => s' = s
  | S754_finite s' m' e' =>
      s' = s /\
      e' = fexp prec emax (Z.pos (digits2_pos m') + e') /\
      Z.pos (digits2_pos p) + e <= Z.pos (digits2_pos m') + e'
  | S754_nan => False
  end.

Lemma binary_round_aux_rounded (s : bool) (p : positive) (e : Z) (l : location) :
  e <= fexp prec emax (Z.pos (digits2_pos p) + e) ->
  rounded s p e (binary_round_aux prec emax s (Z.pos p) e l).
Proof.
  intros Hpre. unfold binary_round_aux.
  pose proof (shr_fexp_spec (Z.pos p) e l ltac:(lia)) as [S0 S1].
  cbv zeta in S0, S1.
  destruct (shr_fexp prec emax (Z.pos p) e l) as [mrs1 e1] eqn:E1.
  cbn [Zdigits2] in S0, S1. cbn [fst snd] in S1.
  set (d := Z.pos (digits2_pos p)) in *.
  assert (Hd : 0 < d) by (unfold d; lia).
  set (m1 := shr_m mrs1).
  (* first shift *)
  assert (H1 : e1 = fexp prec emax (d + e) /\ 0 <= m1 /\
               ((m1 = 0 /\ d + e <= e1 /\ e1 = emin prec emax) \/
                (0 < m1 /\ Zdigits2 m1 + e1 = d + e))).
  { destruct (Z.le_gt_cases (fexp prec emax (d + e) - e) 0) as [Hn|Hn].
    - specialize (S0 Hn). injection S0 as -> ->.
      unfold m1. rewrite shr_record_of_loc_m. cbn [Zdigits2]. fold d.
      split; [lia|]. split; [lia|]. right. lia.
    - destruct (S1 Hn) as [Sm Se]. fold m1 in Sm.
      unfold fexp in Hn, Se, Sm |- *.
      destruct (Z.le_gt_cases d (Z.max (d + e - prec) (emin prec emax) - e))
        as [Hs|Hs].
      + rewrite (Zdigits2_div_small (Z.pos p)) in Sm
          by (cbn [Zdigits2]; fold d; lia).
        split; [lia|]. split; [lia|]. left. lia.
      + destruct (Zdigits2_div (Z.pos p)
                    (Z.max (d + e - prec) (emin prec emax) - e))
          as [Hq Hdq]; [lia | cbn [Zdigits2]; fold d; lia |].
        rewrite <- Sm in Hq, Hdq. cbn [Zdigits2] in Hdq. fold d in Hdq.
        split; [lia|]. split; [lia|]. right. lia. }
  destruct H1 as [He1 [Hm1 Hcase]].
  (* rounding *)
  set (m2 := round_nearest_even m1 (loc_of_shr_record mrs1)).
  assert (H2 : m2 = m1 \/ m2 = m1 + 1) by apply round_nearest_even_cases.
  (* second shift *)
  pose proof (shr_fexp_spec m2 e1 loc_Exact ltac:(lia)) as [T0 T1].
  cbv zeta in T0, T1.
  destruct (shr_fexp prec emax m2 e1 loc_Exact) as [mrs2 e2] eqn:E2.
  cbn [fst snd] in T1.
  unfold fexp in He1.
  destruct (Z.eq_dec m2 0) as [Hz|Hnz].
  - (* rounded to zero *)
    rewrite Hz in T0. cbn [Zdigits2] in T0. unfold fexp in T0.
    specialize (T0 ltac:(lia)). injection T0 as -> ->.
    cbn [shr_m shr_record_of_loc]. cbn [rounded].
    destruct Hcase as [[_ [? ?]]|[? _]]; [|lia]. split; [reflexivity|lia].
  - assert (Hm2 : 0 < m2) by lia.
    assert (Hdm2 : 0 < Zdigits2 m2) by (apply Zdigits2_bounds; exact Hm2).
    assert (Hmag : d + e <= Zdigits2 m2 + e1 /\
                   Zdigits2 m2 + e1 <= Z.max (d + e) (emin prec emax) + 1).
    { destruct Hcase as [[Hm0 [Hle He]]|[Hpos Hmag]].
      - assert (H : m2 = 1) by lia. rewrite H. cbn [Zdigits2 digits2_pos]. lia.
      - destruct H2 as [->| ->]; [lia|].
        pose proof (Zdigits2_succ m1 Hpos). lia. }
    destruct Hmag as [Hmag Hup].
    destruct (Z.le_gt_cases (fexp prec emax (Zdigits2 m2 + e1) - e1) 0)
      as [Hn|Hn].
    + specialize (T0 Hn). injection T0 as -> ->.
      cbn [shr_m shr_record_of_loc].
      destruct m2 as [|q|q]; try lia.
      cbn [Zdigits2] in *. unfold fexp in Hn.
      destruct (e1 <=? emax - prec); cbn [rounded]; [|reflexivity].
      split; [reflexivity|]. unfold fexp. lia.
    + destruct (T1 Hn) as [Tm Te]. unfold fexp in Hn, Tm, Te.
      assert (Hn1 : Z.max (Zdigits2 m2 + e1 - prec) (emin prec emax) - e1 = 1)
        by lia.
      rewrite Hn1 in Tm, Te.
      destruct (Zdigits2_div m2 1 Hm2 ltac:(lia)) as [Hq Hdq].
      rewrite <- Tm in Hq, Hdq.
      destruct (shr_m mrs2) as [|q|q]; try lia.
      cbn [Zdigits2] in Hdq.
      destruct (e2 <=? emax - prec); cbn [rounded]; [|reflexivity].
      split; [reflexivity|]. unfold fexp. lia.
Qed.

Lemma digits2_pos_iter_xO (p k : positive) :
  Z.pos (digits2_pos (Pos.iter xO p k)) = Z.pos (digits2_pos p) + Z.pos k.
Proof.
  induction k as [|k IH] using Pos.peano_ind.
  - cbn [Pos.iter digits2_pos]. lia.
  - rewrite Pos.iter_succ. cbn [digits2_pos]. lia.
Qed.

Lemma binary_round_rounded (s : bool) (p : positive) (e : Z) :
  rounded s p e (binary_round prec emax s p e).
Proof.
  unfold binary_round, shl_align.
  destruct (fexp prec emax (Z.pos (digits2_pos p) + e) - e) as [|k|k] eqn:E;
    try (apply binary_round_aux_rounded; lia).
  pose proof (digits2_pos_iter_xO p k) as D.
  pose proof (Pos2Z.opp_pos k) as N.
  pose proof (binary_round_aux_rounded s (Pos.iter xO p k)
                (fexp prec emax (Z.pos (digits2_pos p) + e)) loc_Exact) as R.
  rewrite D in R.
  replace (Z.pos (digits2_pos p) + Z.pos k
           + fexp prec emax (Z.pos (digits2_pos p) + e))
    with (Z.pos (digits2_pos p) + e) in R by lia.
  specialize (R ltac:(lia)).
  destruct (binary_round_aux prec emax s (Z.pos (Pos.iter xO p k))
              (fexp prec emax (Z.pos (digits2_pos p) + e)) loc_Exact);
    cbn [rounded] in *; try assumption;
    destruct R as [-> R]; (split; [reflexivity|lia]).
Qed.

(** Rounding commutes with a change of sign. *)
Lemma binary_round_negb (s : bool) (p : positive) (e : Z) :
  binary_round prec emax (negb s) p e = SFopp (binary_round prec emax s p e).
Proof.
  unfold binary_round.
  destruct (shl_align p e (fexp prec emax (Z.pos (digits2_pos p) + e)))
    as [mz ez].
  unfold binary_round_aux.
  destruct (shr_fexp prec emax (Z.pos mz) ez loc_Exact) as [mrs1 e1].
  destruct (shr_fexp prec emax
              (round_nearest_even (shr_m mrs1) (loc_of_shr_record mrs1)) e1
              loc_Exact) as [mrs2 e2].
  destruct (shr_m mrs2); try reflexivity.
  destruct (e2 <=? emax - prec); reflexivity.
Qed.

End Rounding.

Lemma convert_opp (prec emax : Z) (x : spec_float) :
  convert prec emax (SFopp x) = SFopp (convert prec emax x).
Proof.
  destruct x as [s|s| |s m e]; try reflexivity.
  cbn [convert SFopp]. apply binary_round_negb.
Qed.

(** ** Signs across conversions *)

(** The mantissa and exponent are those of the [double] format. *)
Definition canonical_double (x : spec_float) : Prop :=
  match x with
  | S754_finite _ m e =>
      e = fexp F64.prec F64.emax (Z.pos (digits2_pos m) + e)
  | _ => True
  end.

Lemma SFltb_zero_opp (x : spec_float) :
  SFltb x (S754_zero false) = true -> SFltb (S754_zero false) (SFopp x) = true.
Proof. destruct x as [s|[|]| |[|] m e]; cbn; congruence. Qed.

Lemma of_float_canonical (x : spec_float) : canonical_double (F64.of_float x).
Proof.
  destruct x as [s|s| |s m e]; try exact I.
  unfold F64.of_float, convert.
  pose proof (binary_round_rounded F64.prec F64.emax ltac:(reflexivity) s m e)
    as R.
  destruct (binary_round F64.prec F64.emax s m e);
    cbn [canonical_double rounded] in *; try exact I.
  apply R.
Qed.

Lemma pos_iter_xO_value (m k : positive) :
  Z.pos (Pos.iter xO m k) = Z.pos m * 2 ^ Z.pos k.
Proof.
  induction k as [|k IH] using Pos.peano_ind.
  - cbn [Pos.iter]. rewrite Pos2Z.inj_xO. change (2 ^ 1) with 2. lia.
  - rewrite Pos.iter_succ, Pos2Z.inj_xO, IH, Pos2Z.inj_succ.
    rewrite Z.pow_succ_r by lia. lia.
Qed.

Lemma shl_align_value (m : positive) (e ez : Z) :
  ez <= e -> Z.pos (fst (shl_align m e ez)) = Z.pos m * 2 ^ (e - ez).
Proof.
  intros H. unfold shl_align.
  destruct (ez - e) as [|k|k] eqn:E; cbn [fst]; try lia.
  - replace (e - ez) with 0 by lia. cbn. lia.
  - rewrite pos_iter_xO_value. f_equal. f_equal. lia.
Qed.

(** The exact difference of two finite values, before it is rounded. *)
Lemma SFsub_finite (prec emax : Z) (sx sy : bool) (mx my : positive)
    (ex ey : Z) :
  SFsub prec emax (S754_finite sx mx ex) (S754_finite sy my ey) =
  binary_normalize prec emax
    (cond_Zopp sx (Z.pos mx * 2 ^ (ex - Z.min ex ey))
     - cond_Zopp sy (Z.pos my * 2 ^ (ey - Z.min ex ey)))
    (Z.min ex ey) false.
Proof.
  cbn [SFsub]. rewrite !shl_align_value by lia. reflexivity.
Qed.

(** ** The sign of a stored difference

    For a [float] reading [x] and a [double] constant [c] that is positive,
    normal and not tiny, the difference [x - c] stored into a [float]
    compares with zero exactly as [x] compares with [c]: neither rounding
    step (the [double] subtraction, the store) moves the result across
    zero. *)

(** A positive normal [double] of exponent at least -147 (at least about
    [2^-95] in value). *)
Definition well_scaled (c : spec_float) : Prop :=
  match c with
  | S754_finite false m e => Z.pos (digits2_pos m) = 53 /\ -147 <= e
  | _ => False
  end.

(** Not a finite value that a conversion to [float] could flush to zero. *)
Definition safe (x : spec_float) : Prop :=
  match x with
  | S754_finite _ m e => -149 < Z.pos (digits2_pos m) + e
  | _ => True
  end.

(** The comparison of a value with zero. *)
Definition sign_of (x : spec_float) : option comparison :=
  SFcompare x (S754_zero false).

Lemma Zdigits2_opp (z : Z) : Zdigits2 (- z) = Zdigits2 z.
Proof. destruct z; reflexivity. Qed.

Lemma binary_normalize_sign (prec emax q ez : Z) :
  0 < prec -> emin prec emax <= -149 ->
  (q <> 0 -> -149 < Zdigits2 q + ez) ->
  sign_of (binary_normalize prec emax q ez false) = Some (q ?= 0) /\
  safe (binary_normalize prec emax q ez false).
Proof.
  intros Hprec Hemin Hmag.
  destruct q as [|p|p]; cbn [binary_normalize].
  - split; [reflexivity | exact I].
  - specialize (Hmag ltac:(lia)). cbn [Zdigits2] in Hmag.
    pose proof (binary_round_rounded prec emax Hprec false p ez) as R.
    destruct (binary_round prec emax false p ez) as [s|s| |s m e];
      cbn [rounded] in R.
    + destruct R as [_ R]. lia.
    + rewrite R. split; [reflexivity | exact I].
    + destruct R.
    + destruct R as [-> [_ R]]. split; [reflexivity | cbn [safe]; lia].
  - specialize (Hmag ltac:(lia)). cbn [Zdigits2] in Hmag.
    pose proof (binary_round_rounded prec emax Hprec true p ez) as R.
    destruct (binary_round prec emax true p ez) as [s|s| |s m e];
      cbn [rounded] in R.
    + destruct R as [_ R]. lia.
    + rewrite R. split; [reflexivity | exact I].
    + destruct R.
    + destruct R as [-> [_ R]]. split; [reflexivity | cbn [safe]; lia].
Qed.

Lemma convert_sign (prec emax : Z) (x : spec_float) :
  0 < prec -> emin prec emax <= -149 -> safe x ->
  sign_of (convert prec emax x) = sign_of x /\ safe (convert prec emax x).
Proof.
  intros Hprec Hemin Hs.
  destruct x as [s|s| |s m e]; try (split; [reflexivity | exact I]).
  cbn [convert safe] in *.
  pose proof (binary_round_rounded prec emax Hprec s m e) as R.
  destruct (binary_round prec emax s m e) as [s'|s'| |s' m' e'];
    cbn [rounded] in R.
  - destruct R as [_ R]. lia.
  - rewrite R. split; [destruct s; reflexivity | exact I].
  - destruct R.
  - destruct R as [-> [_ R]].
    split; [destruct s; reflexivity | cbn [safe]; lia].
Qed.

Lemma aligned_difference_sign (s : bool) (m : positive) (e : Z)
    (c : positive) (ec : Z) :
  canonical_double (S754_finite s m e) ->
  well_scaled (S754_finite false c ec) ->
  let ez := Z.min e ec in
  let q := cond_Zopp s (Z.pos m * 2 ^ (e - ez))
           - cond_Zopp false (Z.pos c * 2 ^ (ec - ez)) in
  SFcompare (S754_finite s m e) (S754_finite false c ec) = Some (q ?= 0) /\
  (q <> 0 -> -149 < Zdigits2 q + ez).
Proof.
  intros Hcan Hws ez q.
  cbn [canonical_double well_scaled] in Hcan, Hws.
  unfold fexp, emin, F64.prec, F64.emax in Hcan.
  destruct Hws as [Hdc Hec].
  pose proof (digits2_pos_bounds m) as [HmL HmU].
  pose proof (digits2_pos_bounds c) as [HcL HcU].
  rewrite Hdc in HcL, HcU.
  change (2 ^ (53 - 1)) with 4503599627370496 in HcL.
  change (2 ^ 53) with 9007199254740992 in HcU.
  assert (HM : Z.pos m < 9007199254740992).
  { change 9007199254740992 with (2 ^ 53).
    eapply Z.lt_le_trans; [exact HmU|]. apply Z.pow_le_mono_r; lia. }
  assert (HK1 : 0 < 2 ^ (e - ez)) by (apply Z.pow_pos_nonneg; lia).
  assert (HK2 : 0 < 2 ^ (ec - ez)) by (apply Z.pow_pos_nonneg; lia).
  destruct s; cbn [cond_Zopp SFcompare] in *.
  - (* a negative value is below the constant *)
    assert (L : 2 ^ (52 + (ec - ez))
                <= Z.pos m * 2 ^ (e - ez) + Z.pos c * 2 ^ (ec - ez)).
    { rewrite Z.pow_add_r by lia. change (2 ^ 52) with 4503599627370496.
      pose proof (Z.mul_pos_pos _ _ (Pos2Z.is_pos m) HK1) as P.
      pose proof (Z.mul_le_mono_nonneg_r 4503599627370496 (Z.pos c)
                    (2 ^ (ec - ez)) ltac:(lia) HcL) as P'.
      lia. }
    apply Zdigits2_lower in L; [|lia].
    assert (Hq : q = - (Z.pos m * 2 ^ (e - ez) + Z.pos c * 2 ^ (ec - ez)))
      by (unfold q; lia).
    rewrite Hq, Zdigits2_opp. split.
    + f_equal. symmetry. apply Z.compare_lt_iff.
      pose proof (Z.mul_pos_pos _ _ (Pos2Z.is_pos m) HK1).
      pose proof (Z.mul_pos_pos _ _ (Pos2Z.is_pos c) HK2). lia.
    + intros _. lia.
  - change (Pos.compare_cont Eq m c) with (Pos.compare m c).
    destruct (Z.compare_spec e ec) as [He|He|He].
    + (* same exponent: the mantissas decide *)
      subst ec. assert (Hez : ez = e) by (unfold ez; lia).
      unfold q. rewrite Hez, Z.sub_diag. change (2 ^ 0) with 1.
      rewrite !Z.mul_1_r. split.
      * f_equal. rewrite Pos2Z.inj_compare.
        destruct (Z.compare_spec (Z.pos m) (Z.pos c)) as [E|E|E];
          symmetry; [apply Z.compare_eq_iff | apply Z.compare_lt_iff
                    | apply Z.compare_gt_iff]; lia.
      * intros Hne.
        assert (L : 2 ^ 0 <= Z.abs (Z.pos m - Z.pos c))
          by (change (2 ^ 0) with 1; lia).
        apply Zdigits2_lower in L; [|lia].
        assert (Habs : Zdigits2 (Z.abs (Z.pos m - Z.pos c))
                       = Zdigits2 (Z.pos m - Z.pos c)).
        { destruct (Z.abs_spec (Z.pos m - Z.pos c)) as [[_ ->]|[_ ->]];
            [reflexivity | apply Zdigits2_opp]. }
        lia.
    + (* smaller exponent: below the constant *)
      assert (Hez : ez = e) by (unfold ez; lia).
      unfold q. rewrite Hez, Z.sub_diag. change (2 ^ 0) with 1.
      rewrite Z.mul_1_r.
      assert (H2 : 2 ^ 1 <= 2 ^ (ec - e)) by (apply Z.pow_le_mono_r; lia).
      change (2 ^ 1) with 2 in H2.
      pose proof (Z.mul_le_mono_nonneg_l 2 (2 ^ (ec - e)) (Z.pos c)
                    ltac:(lia) H2) as P.
      assert (Hq : Z.pos m - Z.pos c * 2 ^ (ec - e)
                   = - (Z.pos c * 2 ^ (ec - e) - Z.pos m)) by lia.
      rewrite Hq, Zdigits2_opp. split.
      * f_equal. symmetry. apply Z.compare_lt_iff. lia.
      * intros _.
        destruct (Z.le_gt_cases (-149) e) as [Hge|Hlt].
        -- assert (L : 2 ^ 0 <= Z.pos c * 2 ^ (ec - e) - Z.pos m)
             by (change (2 ^ 0) with 1; lia).
           apply Zdigits2_lower in L; lia.
        -- assert (H4 : 2 ^ 2 <= 2 ^ (ec - e))
             by (apply Z.pow_le_mono_r; lia).
           change (2 ^ 2) with 4 in H4.
           assert (L : 2 ^ (51 + (ec - e))
                       <= Z.pos c * 2 ^ (ec - e) - Z.pos m).
           { rewrite Z.pow_add_r by lia.
             change (2 ^ 51) with 2251799813685248.
             pose proof (Z.mul_le_mono_nonneg_r 4503599627370496 (Z.pos c)
                           (2 ^ (ec - e)) ltac:(lia) HcL) as P'.
             lia. }
           apply Zdigits2_lower in L; lia.
    + (* larger exponent: a normal value above the constant *)
      assert (Hez : ez = ec) by (unfold ez; lia).
      unfold q. rewrite Hez, Z.sub_diag. change (2 ^ 0) with 1.
      rewrite Z.mul_1_r.
      assert (Hd : Z.pos (digits2_pos m) = 53) by lia.
      rewrite Hd in HmL. change (2 ^ (53 - 1)) with 4503599627370496 in HmL.
      assert (H2 : 2 ^ 1 <= 2 ^ (e - ec)) by (apply Z.pow_le_mono_r; lia).
      change (2 ^ 1) with 2 in H2.
      pose proof (Z.mul_le_mono_nonneg_l 2 (2 ^ (e - ec)) (Z.pos m)
                    ltac:(lia) H2) as P.
      split.
      * f_equal. symmetry. apply Z.compare_gt_iff. lia.
      * intros _.
        assert (L : 2 ^ 0 <= Z.pos m * 2 ^ (e - ec) - Z.pos c)
          by (change (2 ^ 0) with 1; lia).
        apply Zdigits2_lower in L; lia.
Qed.

Lemma sub_sign (y c : spec_float) :
  canonical_double y -> well_scaled c ->
  sign_of (F64.sub y c) = SFcompare y c /\ safe (F64.sub y c).
Proof.
  intros Hy Hc.
  destruct c as [sc|sc| |[|] mc ec]; try contradiction.
  destruct y as [s|s| |s m e].
  - split; [reflexivity|]. destruct Hc as [Hd He]. cbn. lia.
  - split; [destruct s; reflexivity | exact I].
  - split; [reflexivity | exact I].
  - unfold F64.sub. rewrite SFsub_finite.
    destruct (aligned_difference_sign s m e mc ec Hy Hc) as [Hcmp Hmag].
    cbv zeta in Hcmp, Hmag. rewrite Hcmp.
    apply binary_normalize_sign;
      [reflexivity | vm_compute; discriminate | exact Hmag].
Qed.

(** The stored difference compares with zero as the reading compares with
    the constant. *)
Lemma float_minus_sign (x c : spec_float) :
  well_scaled c ->
  SFcompare (F64.of_float (float_minus x c)) F64.zero
    = SFcompare (F64.of_float x) c.
Proof.
  intros Hc. unfold float_minus.
  destruct (sub_sign (F64.of_float x) c (of_float_canonical x) Hc)
    as [Hsign Hsafe].
  destruct (convert_sign F32.prec F32.emax _ ltac:(reflexivity)
              ltac:(vm_compute; discriminate) Hsafe) as [Hsign' Hsafe'].
  destruct (convert_sign F64.prec F64.emax _ ltac:(reflexivity)
              ltac:(vm_compute; discriminate) Hsafe') as [Hsign'' _].
  unfold sign_of in *. unfold F64.of_float at 1, F32.of_double, F64.zero.
  congruence.
Qed.

Lemma SFltb_flip (x y : spec_float) :
  SFltb x y = match SFcompare y x with Some Gt => true | _ => false end.
Proof.
  unfold SFltb.
  destruct (SFcompare y x) as [c|] eqn:E.
  - rewrite (SFcompare_antisym _ _ _ E). destruct c; reflexivity.
  - destruct (SFcompare x y) as [c|] eqn:E'; [|reflexivity].
    rewrite (SFcompare_antisym _ _ _ E') in E. discriminate.
Qed.

Lemma float_minus_lt_zero (x c : spec_float) :
  well_scaled c -> lt_const (float_minus x c) F64.zero = lt_const x c.
Proof.
  intros Hc. unfold lt_const, F64.ltb, SFltb.
  rewrite (float_minus_sign x c Hc). reflexivity.
Qed.

Lemma float_minus_gt_zero (x c : spec_float) :
  well_scaled c -> gt_const (float_minus x c) F64.zero = gt_const x c.
Proof.
  intros Hc. unfold gt_const, F64.ltb. rewrite !SFltb_flip.
  rewrite (float_minus_sign x c Hc). reflexivity.
Qed.

(** ** The diagonal error in terms of the front distances *)

Lemma DIAGONAL_MIN_DISTANCE_well_scaled : well_scaled DIAGONAL_MIN_DISTANCE.
Proof. vm_compute. split; [reflexivity | discriminate]. Qed.

(** The negation of a stored error that is below zero is above zero. *)
Lemma opp_gt_zero (e : spec_float) :
  lt_const e F64.zero = true -> gt_const (F32.opp e) F64.zero = true.
Proof.
  unfold lt_const, gt_const, F64.ltb, F64.of_float, F32.opp, F64.zero.
  intros H. rewrite convert_opp. apply SFltb_zero_opp. exact H.
Qed.

(** X1: When both front distances are below the clearance of 0.24,
    [get_diagonal_sensors_error] returns the front-right distance minus 0.24;
    that value is negative, and it is not the value the front-left distance
    would give. *)
Theorem diagonal_error_right_first (st : walls_state) :
  lt_const (get_front_left_distance st) DIAGONAL_MIN_DISTANCE = true ->
  lt_const (get_front_right_distance st) DIAGONAL_MIN_DISTANCE = true ->
  let result := get_diagonal_sensors_error st in
  result = float_minus (get_front_right_distance st) DIAGONAL_MIN_DISTANCE /\
  lt_const result F64.zero = true /\
  result <>
    F32.opp (float_minus (get_front_left_distance st) DIAGONAL_MIN_DISTANCE).
Proof.
  intros Hl Hr result. subst result.
  unfold get_front_left_distance, get_front_right_distance in *.
  unfold get_diagonal_sensors_error.
  pose proof (fun x => float_minus_lt_zero x _
                          DIAGONAL_MIN_DISTANCE_well_scaled) as S.
  assert (Rneg : lt_const (float_minus (distance st !!! SENSOR_FRONT_RIGHT)
                             DIAGONAL_MIN_DISTANCE) F64.zero = true)
    by (rewrite S; exact Hr).
  assert (Lneg : lt_const (float_minus (distance st !!! SENSOR_FRONT_LEFT)
                             DIAGONAL_MIN_DISTANCE) F64.zero = true)
    by (rewrite S; exact Hl).
  rewrite Rneg. split; [reflexivity|]. split; [exact Rneg|].
  intros E. apply opp_gt_zero in Lneg. rewrite <- E in Lneg.
  unfold lt_const, gt_const, F64.ltb in Rneg, Lneg.
  rewrite (SFltb_asym _ _ Rneg) in Lneg. discriminate.
Qed.

(** A state whose front distances are 0.10 and 0.20 and whose side
    distances are 0.05 and 0.12. *)
Definition near_pillar_state : walls_state :=
  {| distance := [float_dec 10 2; float_dec 20 2;
                  float_dec 5 2; float_dec 12 2];
     calibration_factor := replicate SENSORS_WALL_MAX (S754_zero false) |}.

Lemma diagonal_error_right_first_witness :
  let result := get_diagonal_sensors_error near_pillar_state in
  result = float_minus (get_front_right_distance near_pillar_state)
             DIAGONAL_MIN_DISTANCE /\
  lt_const result F64.zero = true /\
  result <>
    F32.opp (float_minus (get_front_left_distance near_pillar_state)
               DIAGONAL_MIN_DISTANCE).
Proof.
  apply (diagonal_error_right_first near_pillar_state);
    vm_compute; reflexivity.
Defined.

(** X2: [get_diagonal_sensors_error] by the front distances: a front-right
    distance below 0.24 gives the negative value right minus 0.24; otherwise a
    front-left distance below 0.24 gives the positive value 0.24 minus left;
    otherwise the result is zero. *)
Theorem diagonal_error_cases (st : walls_state) :
  let fl := get_front_left_distance st in
  let fr := get_front_right_distance st in
  let result := get_diagonal_sensors_error st in
  (lt_const fr DIAGONAL_MIN_DISTANCE = true ->
   result = float_minus fr DIAGONAL_MIN_DISTANCE /\
   lt_const result F64.zero = true) /\
  (lt_const fr DIAGONAL_MIN_DISTANCE = false ->
   lt_const fl DIAGONAL_MIN_DISTANCE = true ->
   result = F32.opp (float_minus fl DIAGONAL_MIN_DISTANCE) /\
   gt_const result F64.zero = true) /\
  (lt_const fr DIAGONAL_MIN_DISTANCE = false ->
   lt_const fl DIAGONAL_MIN_DISTANCE = false ->
   result = S754_zero false).
Proof.
  intros fl fr result. subst result. unfold get_diagonal_sensors_error.
  unfold get_front_left_distance, get_front_right_distance in fl, fr.
  fold fl fr.
  rewrite !(float_minus_lt_zero _ _ DIAGONAL_MIN_DISTANCE_well_scaled).
  split; [|split].
  - intros Hr. rewrite Hr. split; [reflexivity|].
    rewrite (float_minus_lt_zero _ _ DIAGONAL_MIN_DISTANCE_well_scaled).
    exact Hr.
  - intros Hr Hl. rewrite Hr, Hl. split; [reflexivity|].
    apply opp_gt_zero.
    rewrite (float_minus_lt_zero _ _ DIAGONAL_MIN_DISTANCE_well_scaled).
    exact Hl.
  - intros Hr Hl. rewrite Hr, Hl. reflexivity.
Qed.

(** ** The close error in terms of the side distances *)

(** X3: For a corridor constant that is a positive normal [double],
    [get_side_sensors_close_error] returns the negative value right minus
    [MIDDLE_MAZE_DISTANCE] when the left distance is above the constant and
    the right one below it, the positive value [MIDDLE_MAZE_DISTANCE] minus
    left in the mirrored case, and zero otherwise. *)
Theorem side_close_error_by_distance (MIDDLE_MAZE_DISTANCE : spec_float)
    (st : walls_state) :
  well_scaled MIDDLE_MAZE_DISTANCE ->
  let sl := get_side_left_distance st in
  let sr := get_side_right_distance st in
  let result := get_side_sensors_close_error MIDDLE_MAZE_DISTANCE st in
  (gt_const sl MIDDLE_MAZE_DISTANCE = true ->
   lt_const sr MIDDLE_MAZE_DISTANCE = true ->
   result = float_minus sr MIDDLE_MAZE_DISTANCE /\
   lt_const result F64.zero = true) /\
  (gt_const sr MIDDLE_MAZE_DISTANCE = true ->
   lt_const sl MIDDLE_MAZE_DISTANCE = true ->
   result = F32.opp (float_minus sl MIDDLE_MAZE_DISTANCE) /\
   gt_const result F64.zero = true) /\
  (gt_const sl MIDDLE_MAZE_DISTANCE && lt_const sr MIDDLE_MAZE_DISTANCE
     = false ->
   gt_const sr MIDDLE_MAZE_DISTANCE && lt_const sl MIDDLE_MAZE_DISTANCE
     = false ->
   result = S754_zero false).
Proof.
  intros Hc sl sr result. subst result.
  unfold get_side_sensors_close_error.
  unfold get_side_left_distance, get_side_right_distance in sl, sr.
  fold sl sr.
  rewrite !(float_minus_lt_zero _ _ Hc), !(float_minus_gt_zero _ _ Hc).
  split; [|split].
  - intros Hl Hr. rewrite Hl, Hr. cbn [andb]. split; [reflexivity|].
    rewrite (float_minus_lt_zero _ _ Hc). exact Hr.
  - intros Hr Hl. rewrite Hr, Hl.
    assert (G : gt_const sl MIDDLE_MAZE_DISTANCE = false)
      by (unfold gt_const, lt_const, F64.ltb in *; apply SFltb_asym, Hl).
    rewrite G. cbn [andb]. split; [reflexivity|].
    apply opp_gt_zero. rewrite (float_minus_lt_zero _ _ Hc). exact Hl.
  - intros H1 H2. rewrite H1, H2. reflexivity.
Qed.

Lemma side_close_error_by_distance_witness :
  let sl := get_side_left_distance near_pillar_state in
  let sr := get_side_right_distance near_pillar_state in
  let result := get_side_sensors_close_error (F64.dec 85 3) near_pillar_state in
  (gt_const sl (F64.dec 85 3) = true ->
   lt_const sr (F64.dec 85 3) = true ->
   result = float_minus sr (F64.dec 85 3) /\
   lt_const result F64.zero = true) /\
  (gt_const sr (F64.dec 85 3) = true ->
   lt_const sl (F64.dec 85 3) = true ->
   result = F32.opp (float_minus sl (F64.dec 85 3)) /\
   gt_const result F64.zero = true) /\
  (gt_const sl (F64.dec 85 3) && lt_const sr (F64.dec 85 3) = false ->
   gt_const sr (F64.dec 85 3) && lt_const sl (F64.dec 85 3) = false ->
   result = S754_zero false).
Proof.
  apply (side_close_error_by_distance (F64.dec 85 3) near_pillar_state).
  vm_compute. split; [reflexivity | discriminate].
Defined.

(** ** More on the distance estimator *)

(** X4: An update overwrites every distance: the state after two updates is
    the state after the second one alone. *)
Theorem update_overwrites
    (sensor_raw_log : Z -> Z -> spec_float)
    (on1 off1 on2 off2 : nat -> Z) (st : walls_state) :
  length (distance st) = SENSORS_WALL_MAX ->
  update_distance_readings sensor_raw_log on2 off2
    (update_distance_readings sensor_raw_log on1 off1 st) =
  update_distance_readings sensor_raw_log on2 off2 st.
Proof.
  intros Hd.
  rewrite (update_distance_readings_eq sensor_raw_log on1 off1 st Hd).
  rewrite update_distance_readings_eq by reflexivity.
  rewrite (update_distance_readings_eq sensor_raw_log on2 off2 st Hd).
  reflexivity.
Qed.

Lemma update_overwrites_witness :
  update_distance_readings sample_raw_log (fun _ => 900) (fun _ => 40)
    (update_distance_readings sample_raw_log (fun _ => 1000) (fun _ => 100)
       initial_state) =
  update_distance_readings sample_raw_log (fun _ => 900) (fun _ => 40)
    initial_state.
Proof.
  apply (update_overwrites sample_raw_log
           (fun _ => 1000) (fun _ => 100) (fun _ => 900) (fun _ => 40)
           initial_state).
  reflexivity.
Defined.

(** X5: The distances after an update depend on the state only through the two
    side offsets. *)
Theorem update_depends_on_side_offsets
    (sensor_raw_log : Z -> Z -> spec_float)
    (on off : nat -> Z) (st1 st2 : walls_state) :
  length (distance st1) = SENSORS_WALL_MAX ->
  length (distance st2) = SENSORS_WALL_MAX ->
  calibration_factor st1 !!! SENSOR_SIDE_LEFT =
    calibration_factor st2 !!! SENSOR_SIDE_LEFT ->
  calibration_factor st1 !!! SENSOR_SIDE_RIGHT =
    calibration_factor st2 !!! SENSOR_SIDE_RIGHT ->
  distance (update_distance_readings sensor_raw_log on off st1) =
  distance (update_distance_readings sensor_raw_log on off st2).
Proof.
  intros H1 H2 Hl Hr.
  rewrite (update_distance_readings_eq sensor_raw_log on off st1 H1).
  rewrite (update_distance_readings_eq sensor_raw_log on off st2 H2).
  cbn [distance]. rewrite Hl, Hr. reflexivity.
Qed.

Lemma update_depends_on_side_offsets_witness :
  distance (update_distance_readings sample_raw_log
              (fun _ => 1000) (fun _ => 100) initial_state) =
  distance (update_distance_readings sample_raw_log
              (fun _ => 1000) (fun _ => 100) near_pillar_state).
Proof.
  apply (update_depends_on_side_offsets sample_raw_log
           (fun _ => 1000) (fun _ => 100) initial_state near_pillar_state);
    reflexivity.
Defined.

(** No reading: not a number, or infinitely far. *)
Definition no_reading (x : spec_float) : Prop :=
  x = S754_nan \/ x = S754_infinity false.

Lemma no_reading_not_below (x t : spec_float) :
  no_reading x -> F64.ltb (F64.of_float x) t = false.
Proof.
  intros [-> | ->]; [reflexivity|].
  destruct t as [s|[|]| |s m e]; reflexivity.
Qed.

Lemma sub_infinity_no_reading (c : spec_float) :
  no_reading (F32.sub (S754_infinity false) c).
Proof.
  destruct c as [s|[|]| |s m e]; cbn; unfold no_reading; auto.
Qed.

Section ZeroRatio.

Variable CELL_DIMENSION : spec_float.
Variable sensor_raw_log : Z -> Z -> spec_float.
Variables on off : nat -> Z.

Local Abbreviation ratio i :=
  (sensor_raw_log (to_uint16 (on i)) (to_uint16 (off i))).

Lemma curve_zero_ratio (a b : spec_float) (i : nat) :
  ratio i = S754_zero false ->
  (exists m e, F32.of_double a = S754_finite false m e) ->
  (exists s m e, F32.of_double b = S754_finite s m e) ->
  curve sensor_raw_log on off a b i = S754_infinity false.
Proof.
  intros Hr [m [e Ha]] [s [m' [e' Hb]]].
  unfold curve. rewrite Hr, Ha, Hb. reflexivity.
Qed.

(** X6: When the logarithmic transform returns zero for a front sensor, the
    update stores an infinite distance for it; no front wall is detected and
    the front error is zero, whatever the other front sensor reads. *)
Theorem zero_ratio_front (st : walls_state) :
  length (distance st) = SENSORS_WALL_MAX ->
  ratio SENSOR_FRONT_LEFT = S754_zero false \/
  ratio SENSOR_FRONT_RIGHT = S754_zero false ->
  let st' := update_distance_readings sensor_raw_log on off st in
  (ratio SENSOR_FRONT_LEFT = S754_zero false ->
   get_front_left_distance st' = S754_infinity false) /\
  (ratio SENSOR_FRONT_RIGHT = S754_zero false ->
   get_front_right_distance st' = S754_infinity false) /\
  front_wall_detection CELL_DIMENSION st' = false /\
  get_front_sensors_error CELL_DIMENSION st' = S754_zero false.
Proof.
  intros Hd Hz st'.
  assert (HL : ratio SENSOR_FRONT_LEFT = S754_zero false ->
               get_front_left_distance st' = S754_infinity false).
  { intros H. unfold st'. rewrite update_distance_readings_eq by exact Hd.
    unfold get_front_left_distance. cbn [distance].
    change (curve sensor_raw_log on off SENSOR_FRONT_LEFT_A
              SENSOR_FRONT_LEFT_B SENSOR_FRONT_LEFT = S754_infinity false).
    apply curve_zero_ratio; [exact H | |]; vm_compute; eauto. }
  assert (HR : ratio SENSOR_FRONT_RIGHT = S754_zero false ->
               get_front_right_distance st' = S754_infinity false).
  { intros H. unfold st'. rewrite update_distance_readings_eq by exact Hd.
    unfold get_front_right_distance. cbn [distance].
    change (curve sensor_raw_log on off SENSOR_FRONT_RIGHT_A
              SENSOR_FRONT_RIGHT_B SENSOR_FRONT_RIGHT = S754_infinity false).
    apply curve_zero_ratio; [exact H | |]; vm_compute; eauto. }
  assert (HD : front_wall_detection CELL_DIMENSION st' = false).
  { rewrite front_wall_detection_spec.
    destruct Hz as [H|H].
    - rewrite (HL H).
      rewrite (no_reading_not_below (S754_infinity false))
        by (right; reflexivity).
      reflexivity.
    - rewrite (HR H).
      rewrite (no_reading_not_below (S754_infinity false))
        by (right; reflexivity).
      apply andb_false_r. }
  split; [exact HL|]. split; [exact HR|]. split; [exact HD|].
  unfold get_front_sensors_error. rewrite HD. reflexivity.
Qed.

(** X7: When the logarithmic transform returns zero for the side-left sensor,
    the update stores an infinite distance or, if the offset is itself
    infinite or not a number, not a number; the left wall is not detected. The
    same holds on the right. *)
Theorem zero_ratio_side (st : walls_state) :
  length (distance st) = SENSORS_WALL_MAX ->
  let st' := update_distance_readings sensor_raw_log on off st in
  (ratio SENSOR_SIDE_LEFT = S754_zero false ->
   no_reading (get_side_left_distance st') /\
   left_wall_detection CELL_DIMENSION st' = false) /\
  (ratio SENSOR_SIDE_RIGHT = S754_zero false ->
   no_reading (get_side_right_distance st') /\
   right_wall_detection CELL_DIMENSION st' = false).
Proof.
  intros Hd st'. unfold st'.
  rewrite update_distance_readings_eq by exact Hd.
  unfold get_side_left_distance, get_side_right_distance,
    left_wall_detection, right_wall_detection.
  cbn [distance].
  split; intros H.
  - change (no_reading
              (F32.sub (curve sensor_raw_log on off SENSOR_SIDE_LEFT_A
                          SENSOR_SIDE_LEFT_B SENSOR_SIDE_LEFT)
                 (calibration_factor st !!! SENSOR_SIDE_LEFT)) /\
            (if F64.ltb
                  (F64.of_float
                     (F32.sub (curve sensor_raw_log on off SENSOR_SIDE_LEFT_A
                                 SENSOR_SIDE_LEFT_B SENSOR_SIDE_LEFT)
                        (calibration_factor st !!! SENSOR_SIDE_LEFT)))
                  (SIDE_WALL_DETECTION CELL_DIMENSION)
             then true else false) = false).
    rewrite curve_zero_ratio by (try exact H; vm_compute; eauto).
    split; [apply sub_infinity_no_reading|].
    rewrite no_reading_not_below by apply sub_infinity_no_reading.
    reflexivity.
  - change (no_reading
              (F32.sub (curve sensor_raw_log on off SENSOR_SIDE_RIGHT_A
                          SENSOR_SIDE_RIGHT_B SENSOR_SIDE_RIGHT)
                 (calibration_factor st !!! SENSOR_SIDE_RIGHT)) /\
            (if F64.ltb
                  (F64.of_float
                     (F32.sub (curve sensor_raw_log on off SENSOR_SIDE_RIGHT_A
                                 SENSOR_SIDE_RIGHT_B SENSOR_SIDE_RIGHT)
                        (calibration_factor st !!! SENSOR_SIDE_RIGHT)))
                  (SIDE_WALL_DETECTION CELL_DIMENSION)
             then true else false) = false).
    rewrite curve_zero_ratio by (try exact H; vm_compute; eauto).
    split; [apply sub_infinity_no_reading|].
    rewrite no_reading_not_below by apply sub_infinity_no_reading.
    reflexivity.
Qed.

End ZeroRatio.

(** A transform that returns zero whatever the samples are. *)
Definition zero_raw_log (on off : Z) : spec_float := S754_zero false.

Lemma zero_ratio_front_witness :
  let st' := update_distance_readings zero_raw_log
               (fun _ => 500) (fun _ => 500) initial_state in
  (zero_raw_log (to_uint16 500) (to_uint16 500) = S754_zero false ->
   get_front_left_distance st' = S754_infinity false) /\
  (zero_raw_log (to_uint16 500) (to_uint16 500) = S754_zero false ->
   get_front_right_distance st' = S754_infinity false) /\
  front_wall_detection (F64.dec 18 2) st' = false /\
  get_front_sensors_error (F64.dec 18 2) st' = S754_zero false.
Proof.
  apply (zero_ratio_front (F64.dec 18 2) zero_raw_log
           (fun _ => 500) (fun _ => 500) initial_state).
  - reflexivity.
  - left. reflexivity.
Defined.

Lemma zero_ratio_side_witness :
  let st' := update_distance_readings zero_raw_log
               (fun _ => 500) (fun _ => 500) initial_state in
  (zero_raw_log (to_uint16 500) (to_uint16 500) = S754_zero false ->
   no_reading (get_side_left_distance st') /\
   left_wall_detection (F64.dec 18 2) st' = false) /\
  (zero_raw_log (to_uint16 500) (to_uint16 500) = S754_zero false ->
   no_reading (get_side_right_distance st') /\
   right_wall_detection (F64.dec 18 2) st' = false).
Proof.
  apply (zero_ratio_side (F64.dec 18 2) zero_raw_log
           (fun _ => 500) (fun _ => 500) initial_state).
  reflexivity.
Defined.

(** ** More on the calibration *)

Lemma SFadd_nan_r (prec emax : Z) (x : spec_float) :
  SFadd prec emax x S754_nan = S754_nan.
Proof. destruct x; reflexivity. Qed.

Lemma SFsub_nan_r (prec emax : Z) (x : spec_float) :
  SFsub prec emax x S754_nan = S754_nan.
Proof. destruct x; reflexivity. Qed.

Section CalibrationLaw.

Variable MIDDLE_MAZE_DISTANCE : spec_float.
Variable SENSORS_PERIOD_us : Z.

Local Abbreviation calibrate :=
  (side_sensors_calibration MIDDLE_MAZE_DISTANCE SENSORS_PERIOD_us).

Lemma calibration_left_offset (st : walls_state) :
  length (calibration_factor st) = SENSORS_WALL_MAX ->
  calibration_factor (calibrate st) !!! SENSOR_SIDE_LEFT =
  F32.of_double
    (F64.add (F64.of_float (calibration_factor st !!! SENSOR_SIDE_LEFT))
       (sampled_bias MIDDLE_MAZE_DISTANCE (distance st !!! SENSOR_SIDE_LEFT))).
Proof.
  intros Hc. rewrite side_sensors_calibration_eq. cbn [calibration_factor].
  rewrite list_lookup_total_insert_ne by discriminate.
  rewrite list_lookup_total_insert_eq
    by (rewrite Hc; unfold SENSOR_SIDE_LEFT, SENSORS_WALL_MAX; lia).
  reflexivity.
Qed.

Lemma calibration_right_offset (st : walls_state) :
  length (calibration_factor st) = SENSORS_WALL_MAX ->
  calibration_factor (calibrate st) !!! SENSOR_SIDE_RIGHT =
  F32.of_double
    (F64.add (F64.of_float (calibration_factor st !!! SENSOR_SIDE_RIGHT))
       (sampled_bias MIDDLE_MAZE_DISTANCE (distance st !!! SENSOR_SIDE_RIGHT))).
Proof.
  intros Hc. rewrite side_sensors_calibration_eq. cbn [calibration_factor].
  rewrite list_lookup_total_insert_eq
    by (rewrite length_insert, Hc;
        unfold SENSOR_SIDE_RIGHT, SENSORS_WALL_MAX; lia).
  rewrite list_lookup_total_insert_ne by discriminate.
  reflexivity.
Qed.

Lemma calibration_keeps_wf (st : walls_state) :
  wf_state st -> wf_state (calibrate st).
Proof.
  intros [Hd Hc]. rewrite side_sensors_calibration_eq.
  split; cbn [distance calibration_factor];
    rewrite ?length_insert; assumption.
Qed.

(** X8: Each side offset after a calibration is the old offset plus the
    sampled bias of that side, summed in [double] and rounded to [float]; the
    store for the left side does not disturb the right side. *)
Theorem calibration_accumulates (st : walls_state) :
  length (calibration_factor st) = SENSORS_WALL_MAX ->
  let old i := calibration_factor st !!! i in
  let new i := calibration_factor (calibrate st) !!! i in
  let bias i := sampled_bias MIDDLE_MAZE_DISTANCE (distance st !!! i) in
  new SENSOR_SIDE_LEFT =
    F32.of_double (F64.add (F64.of_float (old SENSOR_SIDE_LEFT))
                     (bias SENSOR_SIDE_LEFT)) /\
  new SENSOR_SIDE_RIGHT =
    F32.of_double (F64.add (F64.of_float (old SENSOR_SIDE_RIGHT))
                     (bias SENSOR_SIDE_RIGHT)).
Proof.
  intros Hc old new bias. split.
  - apply calibration_left_offset, Hc.
  - apply calibration_right_offset, Hc.
Qed.

Lemma sampled_bias_nan : sampled_bias MIDDLE_MAZE_DISTANCE S754_nan = S754_nan.
Proof.
  unfold sampled_bias.
  change (Z.to_nat SIDE_CALIBRATION_READINGS) with 20%nat.
  cbn [Nat.iter nat_rect]. unfold F32.add. rewrite SFadd_nan_r. reflexivity.
Qed.


End CalibrationLaw.

Lemma calibration_accumulates_witness :
  let st := calibration_scenario_state in
  let calibrate := side_sensors_calibration (F64.dec 85 3) 1000 in
  let old i := calibration_factor st !!! i in
  let new i := calibration_factor (calibrate st) !!! i in
  let bias i := sampled_bias (F64.dec 85 3) (distance st !!! i) in
  new SENSOR_SIDE_LEFT =
    F32.of_double (F64.add (F64.of_float (old SENSOR_SIDE_LEFT))
                     (bias SENSOR_SIDE_LEFT)) /\
  new SENSOR_SIDE_RIGHT =
    F32.of_double (F64.add (F64.of_float (old SENSOR_SIDE_RIGHT))
                     (bias SENSOR_SIDE_RIGHT)).
Proof.
  apply (calibration_accumulates (F64.dec 85 3) 1000
           calibration_scenario_state).
  reflexivity.
Defined.


(** ** Readings that are not numbers *)

Section Poisoned.

Variable CELL_DIMENSION : spec_float.
Variable MIDDLE_MAZE_DISTANCE : spec_float.
Variable SENSORS_PERIOD_us : Z.
Variable sensor_raw_log : Z -> Z -> spec_float.

Local Abbreviation calibrate :=
  (side_sensors_calibration MIDDLE_MAZE_DISTANCE SENSORS_PERIOD_us).
Local Abbreviation step_here :=
  (step CELL_DIMENSION MIDDLE_MAZE_DISTANCE SENSORS_PERIOD_us sensor_raw_log).
Local Abbreviation run_here :=
  (run CELL_DIMENSION MIDDLE_MAZE_DISTANCE SENSORS_PERIOD_us sensor_raw_log).

(** Four-entry arrays whose side-left offset is not a number. *)
Definition left_offset_nan (st : walls_state) : Prop :=
  wf_state st /\ calibration_factor st !!! SENSOR_SIDE_LEFT = S754_nan.

Lemma calibrate_nan_reading (st : walls_state) :
  wf_state st -> distance st !!! SENSOR_SIDE_LEFT = S754_nan ->
  left_offset_nan (calibrate st).
Proof.
  intros Hwf Hd. split; [apply calibration_keeps_wf, Hwf|].
  rewrite calibration_left_offset by apply Hwf.
  rewrite Hd, sampled_bias_nan. unfold F64.add. rewrite SFadd_nan_r.
  reflexivity.
Qed.

Lemma left_offset_nan_step (o : operation) (st : walls_state) :
  left_offset_nan st -> left_offset_nan (fst (step_here o st)).
Proof.
  intros [Hwf Hn]. destruct o as [on off| |o]; cbn [step fst].
  - destruct Hwf as [Hd Hc].
    rewrite update_distance_readings_eq by exact Hd.
    split; [split; [reflexivity | exact Hc] | exact Hn].
  - split; [apply calibration_keeps_wf, Hwf|].
    rewrite calibration_left_offset by apply Hwf.
    rewrite Hn. reflexivity.
  - split; assumption.
Qed.

Lemma left_offset_nan_run (ops : list operation) (st : walls_state) :
  left_offset_nan st -> left_offset_nan (run_here ops st).
Proof.
  revert st. induction ops as [|o ops IH]; intros st H; [exact H|].
  cbn [run]. apply IH, left_offset_nan_step, H.
Qed.

Lemma left_offset_nan_update (on off : nat -> Z) (st : walls_state) :
  left_offset_nan st ->
  get_side_left_distance (update_distance_readings sensor_raw_log on off st)
    = S754_nan.
Proof.
  intros [[Hd Hc] Hn].
  rewrite update_distance_readings_eq by exact Hd.
  unfold get_side_left_distance. cbn [distance].
  change (F32.sub
            (curve sensor_raw_log on off SENSOR_SIDE_LEFT_A SENSOR_SIDE_LEFT_B
               SENSOR_SIDE_LEFT)
            (calibration_factor st !!! SENSOR_SIDE_LEFT) = S754_nan).
  rewrite Hn. apply SFsub_nan_r.
Qed.

(** X10: A calibration that samples a side-left distance that is not a number
    leaves a side-left offset that is not a number, and no later update,
    calibration or read-only call repairs it: after every later update the
    side-left distance is not a number, the left wall is not detected and both
    side errors are zero. *)
Theorem nan_reading_poisons_calibration (st : walls_state)
    (ops : list operation) (on off : nat -> Z) :
  wf_state st ->
  get_side_left_distance st = S754_nan ->
  let poisoned := run_here ops (calibrate st) in
  let st' := update_distance_readings sensor_raw_log on off poisoned in
  calibration_factor (calibrate st) !!! SENSOR_SIDE_LEFT = S754_nan /\
  calibration_factor poisoned !!! SENSOR_SIDE_LEFT = S754_nan /\
  get_side_left_distance st' = S754_nan /\
  left_wall_detection CELL_DIMENSION st' = false /\
  get_side_sensors_close_error MIDDLE_MAZE_DISTANCE st' = S754_zero false /\
  get_side_sensors_far_error MIDDLE_MAZE_DISTANCE st' = S754_zero false.
Proof.
  intros Hwf Hd poisoned st'.
  pose proof (calibrate_nan_reading st Hwf Hd) as H0.
  pose proof (left_offset_nan_run ops _ H0) as H1. fold poisoned in H1.
  pose proof (left_offset_nan_update on off _ H1) as H2. fold st' in H2.
  split; [apply H0|]. split; [apply H1|]. split; [exact H2|].
  unfold get_side_left_distance in H2.
  unfold left_wall_detection, get_side_sensors_close_error,
    get_side_sensors_far_error.
  rewrite H2. repeat split.
  - unfold float_minus, gt_const, lt_const. cbn.
    rewrite andb_false_r. reflexivity.
  - unfold float_minus, gt_const, lt_const. cbn.
    rewrite andb_false_r. reflexivity.
Qed.


End Poisoned.

(** A state whose side-left distance is not a number. *)
Definition nan_left_state : walls_state :=
  {| distance := [float_dec 30 2; float_dec 30 2; S754_nan; float_dec 8 2];
     calibration_factor := replicate SENSORS_WALL_MAX (S754_zero false) |}.

Lemma nan_reading_poisons_calibration_witness :
  let calibrate := side_sensors_calibration (F64.dec 85 3) 1000 in
  let poisoned :=
    run (F64.dec 18 2) (F64.dec 85 3) 1000 sample_raw_log
      [Op_update (fun _ => 1000) (fun _ => 100); Op_calibrate;
       Op_observe Read_walls]
      (calibrate nan_left_state) in
  let st' := update_distance_readings sample_raw_log
               (fun _ => 900) (fun _ => 40) poisoned in
  calibration_factor (calibrate nan_left_state) !!! SENSOR_SIDE_LEFT
    = S754_nan /\
  calibration_factor poisoned !!! SENSOR_SIDE_LEFT = S754_nan /\
  get_side_left_distance st' = S754_nan /\
  left_wall_detection (F64.dec 18 2) st' = false /\
  get_side_sensors_close_error (F64.dec 85 3) st' = S754_zero false /\
  get_side_sensors_far_error (F64.dec 85 3) st' = S754_zero false.
Proof.
  apply (nan_reading_poisons_calibration (F64.dec 18 2) (F64.dec 85 3) 1000
           sample_raw_log nan_left_state
           [Op_update (fun _ => 1000) (fun _ => 100); Op_calibrate;
            Op_observe Read_walls]
           (fun _ => 900) (fun _ => 40)).
  - split; reflexivity.
  - reflexivity.
Defined.

(** ** More on the analyzer *)

Lemma SFadd_comm (prec emax : Z) (x y : spec_float) :
  SFadd prec emax x y = SFadd prec emax y x.
Proof.
  destruct x as [sx|sx| |sx mx ex], y as [sy|sy| |sy my ey];
    try reflexivity;
    try (destruct sx, sy; reflexivity).
  cbn [SFadd]. rewrite (Z.min_comm ey ex). f_equal. apply Z.add_comm.
Qed.


Lemma SFleb_ltb_trans (x y z : spec_float) :
  SFleb x y = true -> SFltb y z = true -> SFltb x z = true.
Proof.
  unfold SFleb, SFltb.
  destruct x as [sx|sx| |sx mx ex], y as [sy|sy| |sy my ey],
    z as [sz|sz| |sz mz ez]; simpl;
    try discriminate;
    try (destruct sx; try discriminate); try (destruct sy; try discriminate);
    try (destruct sz; try discriminate); try reflexivity.
  - change (Pos.compare_cont Eq my mx) with (Pos.compare my mx).
    change (Pos.compare_cont Eq mz my) with (Pos.compare mz my).
    change (Pos.compare_cont Eq mz mx) with (Pos.compare mz mx).
    change (Pos.compare_cont Eq mx my) with (Pos.compare mx my).
    change (Pos.compare_cont Eq my mz) with (Pos.compare my mz).
    change (Pos.compare_cont Eq mx mz) with (Pos.compare mx mz).
    destruct (Z.compare_spec ex ey), (Z.compare_spec ey ez),
      (Z.compare_spec ex ez); simpl; try discriminate; try reflexivity;
      try lia; subst;
      destruct (Pos.compare_spec mx my), (Pos.compare_spec my mz),
        (Pos.compare_spec mx mz); simpl; try discriminate; try reflexivity;
      lia.
  - change (Pos.compare_cont Eq mx my) with (Pos.compare mx my).
    change (Pos.compare_cont Eq my mz) with (Pos.compare my mz).
    change (Pos.compare_cont Eq mx mz) with (Pos.compare mx mz).
    destruct (Z.compare_spec ex ey), (Z.compare_spec ey ez),
      (Z.compare_spec ex ez); simpl; try discriminate; try reflexivity;
      try lia; subst;
      destruct (Pos.compare_spec mx my), (Pos.compare_spec my mz),
        (Pos.compare_spec mx mz); simpl; try discriminate; try reflexivity;
      lia.
Qed.

(** X12: [get_front_wall_distance] does not depend on which front sensor gave
    which reading. *)
Theorem front_wall_distance_symmetric (st1 st2 : walls_state) :
  get_front_left_distance st1 = get_front_right_distance st2 ->
  get_front_right_distance st1 = get_front_left_distance st2 ->
  get_front_wall_distance st1 = get_front_wall_distance st2.
Proof.
  unfold get_front_left_distance, get_front_right_distance,
    get_front_wall_distance.
  intros -> ->. unfold F32.add.
  rewrite (SFadd_comm F32.prec F32.emax). reflexivity.
Qed.

(** The state [near_pillar_state] with its two front readings swapped. *)
Definition near_pillar_mirrored : walls_state :=
  {| distance := [float_dec 20 2; float_dec 10 2;
                  float_dec 5 2; float_dec 12 2];
     calibration_factor := replicate SENSORS_WALL_MAX (S754_zero false) |}.

Lemma front_wall_distance_symmetric_witness :
  get_front_wall_distance near_pillar_state
    = get_front_wall_distance near_pillar_mirrored.
Proof.
  apply (front_wall_distance_symmetric near_pillar_state near_pillar_mirrored);
    reflexivity.
Defined.

Section AnalyzerMore.

Variable CELL_DIMENSION : spec_float.


(** X14: [read_walls] reports no wall on a side whose reading is infinite or
    not a number, and no front wall when either front reading is. *)
Theorem read_walls_no_reading (st : walls_state) :
  let walls := read_walls CELL_DIMENSION st in
  (no_reading (get_side_left_distance st) -> wall_left walls = false) /\
  (no_reading (get_side_right_distance st) -> wall_right walls = false) /\
  (no_reading (get_front_left_distance st) \/
   no_reading (get_front_right_distance st) -> wall_front walls = false).
Proof.
  intros walls. subst walls. cbn [read_walls wall_left wall_right wall_front].
  split; [|split].
  - intros H. unfold left_wall_detection.
    unfold get_side_left_distance in H.
    rewrite (no_reading_not_below _ _ H). reflexivity.
  - intros H. unfold right_wall_detection.
    unfold get_side_right_distance in H.
    rewrite (no_reading_not_below _ _ H). reflexivity.
  - rewrite front_wall_detection_spec.
    intros [H|H]; rewrite (no_reading_not_below _ _ H);
      [reflexivity | apply andb_false_r].
Qed.

(** X15: Wall detection is monotone: where a wall is detected, it is also
    detected for readings that are no larger. *)
Theorem wall_detection_monotone (st1 st2 : walls_state) :
  let le (x y : spec_float) := F64.leb (F64.of_float x) (F64.of_float y) in
  (le (get_side_left_distance st1) (get_side_left_distance st2) = true ->
   left_wall_detection CELL_DIMENSION st2 = true ->
   left_wall_detection CELL_DIMENSION st1 = true) /\
  (le (get_side_right_distance st1) (get_side_right_distance st2) = true ->
   right_wall_detection CELL_DIMENSION st2 = true ->
   right_wall_detection CELL_DIMENSION st1 = true) /\
  (le (get_front_left_distance st1) (get_front_left_distance st2) = true ->
   le (get_front_right_distance st1) (get_front_right_distance st2) = true ->
   front_wall_detection CELL_DIMENSION st2 = true ->
   front_wall_detection CELL_DIMENSION st1 = true).
Proof.
  intros le. subst le. cbv beta.
  unfold get_side_left_distance, get_side_right_distance, F64.leb.
  split; [|split].
  - unfold left_wall_detection, F64.ltb. intros Hle H2.
    destruct (SFltb (F64.of_float (distance st2 !!! SENSOR_SIDE_LEFT))
                (SIDE_WALL_DETECTION CELL_DIMENSION)) eqn:E;
      [|discriminate].
    rewrite (SFleb_ltb_trans _ _ _ Hle E). reflexivity.
  - unfold right_wall_detection, F64.ltb. intros Hle H2.
    destruct (SFltb (F64.of_float (distance st2 !!! SENSOR_SIDE_RIGHT))
                (SIDE_WALL_DETECTION CELL_DIMENSION)) eqn:E;
      [|discriminate].
    rewrite (SFleb_ltb_trans _ _ _ Hle E). reflexivity.
  - rewrite !front_wall_detection_spec. unfold F64.ltb.
    intros Hl Hr H2. apply andb_true_iff in H2 as [E1 E2].
    rewrite (SFleb_ltb_trans _ _ _ Hl E1), (SFleb_ltb_trans _ _ _ Hr E2).
    reflexivity.
Qed.

End AnalyzerMore.

